(** * whatsapp-reminder-bot: the reminder engine of [index.js]

    A shallow embedding of the reminder scheduling and persistence code of
    [index.js] (command handling, the node-schedule job callback, start-up
    rescheduling, listing, and the JSON file helpers), followed by the
    properties of the specification that concern it.

    The bot runs in one Node.js process.  Every handler is modelled as a
    computation over an explicit [World]: the system clock, the reminders
    file, the health of the file system and of the chat connection, the
    node-schedule registry, and the observable outputs (messages sent,
    replies, console).  A handler runs at one instant: the clock is read, not
    advanced, and handlers do not interleave (an [await] does not let
    another handler in). *)

From Stdlib Require Import ZArith List String Ascii Bool Lia.
From Stdlib Require Import Permutation Sorted DecimalString.
From Stdlib Require DecimalZ DecimalPos.
Import ListNotations.

Local Open Scope string_scope.
Local Open Scope Z_scope.

(* ===================================================================== *)
(** * The JavaScript [Date] object (ECMA-262, "Date Objects")

    A [Date] is its time value: milliseconds since the epoch, UTC.  Only
    finite time values occur (chrono-node never returns an Invalid Date), so
    a time value is a [Z].  The time zone of the process is ECMA-262's
    [LocalTZA (t, isUTC)]: the offset of local time at the instant [t] when
    [isUTC] is true, and the offset to apply to the local time [t] when it is
    false (for a local time that is skipped or repeated at a change of
    offset, the offset in force before the change).  It is an argument of
    every operation that looks at local fields. *)
(* ===================================================================== *)

Module JSDate.

Definition msPerSecond : Z := 1000.
Definition msPerMinute : Z := 60000.
Definition msPerHour : Z := 3600000.
Definition msPerDay : Z := 86400000.

Definition Day (t : Z) : Z := t / msPerDay.
Definition TimeWithinDay (t : Z) : Z := t mod msPerDay.

Definition DaysInYear (y : Z) : Z :=
  if negb (y mod 4 =? 0) then 365
  else if negb (y mod 100 =? 0) then 366
  else if negb (y mod 400 =? 0) then 365
  else 366.

Definition DayFromYear (y : Z) : Z :=
  365 * (y - 1970) + (y - 1969) / 4 - (y - 1901) / 100 + (y - 1601) / 400.

Definition TimeFromYear (y : Z) : Z := msPerDay * DayFromYear y.

(** The largest [y] with [TimeFromYear y <= t]: an estimate from the mean
    length of a Gregorian year, corrected by at most one year. *)
Definition YearFromTime (t : Z) : Z :=
  let y := 1970 + (Day t * 400) / 146097 in
  if Day t <? DayFromYear y then y - 1
  else if DayFromYear (y + 1) <=? Day t then y + 1
  else y.

Definition InLeapYear (t : Z) : Z :=
  if DaysInYear (YearFromTime t) =? 365 then 0 else 1.

Definition DayWithinYear (t : Z) : Z := Day t - DayFromYear (YearFromTime t).

(** Days of the year before the first day of month [m] (0 = January). *)
Definition monthStart (m leap : Z) : Z :=
  match m with
  | 0 => 0
  | 1 => 31
  | 2 => 59 + leap
  | 3 => 90 + leap
  | 4 => 120 + leap
  | 5 => 151 + leap
  | 6 => 181 + leap
  | 7 => 212 + leap
  | 8 => 243 + leap
  | 9 => 273 + leap
  | 10 => 304 + leap
  | _ => 334 + leap
  end.

Definition MonthFromTime (t : Z) : Z :=
  let d := DayWithinYear t in
  let leap := InLeapYear t in
  if d <? 31 then 0
  else if d <? 59 + leap then 1
  else if d <? 90 + leap then 2
  else if d <? 120 + leap then 3
  else if d <? 151 + leap then 4
  else if d <? 181 + leap then 5
  else if d <? 212 + leap then 6
  else if d <? 243 + leap then 7
  else if d <? 273 + leap then 8
  else if d <? 304 + leap then 9
  else if d <? 334 + leap then 10
  else 11.

Definition DateFromTime (t : Z) : Z :=
  DayWithinYear t - monthStart (MonthFromTime t) (InLeapYear t) + 1.

Definition MakeTime (hour min sec ms : Z) : Z :=
  hour * msPerHour + min * msPerMinute + sec * msPerSecond + ms.

(** [MakeDay]: the day number of the first of month [mn] of year [ym], plus
    [date - 1]; months outside 0..11 carry into the year. *)
Definition MakeDay (year month date : Z) : Z :=
  let ym := year + month / 12 in
  let mn := month mod 12 in
  let leap := if DaysInYear ym =? 365 then 0 else 1 in
  DayFromYear ym + monthStart mn leap + date - 1.

Definition MakeDate (day time : Z) : Z := day * msPerDay + time.

Section Local.
Variable LocalTZA : Z -> bool -> Z.

Definition LocalTime (t : Z) : Z := t + LocalTZA t true.
Definition UTC (t : Z) : Z := t - LocalTZA t false.

(** [Date.prototype.getTime], [getDate], [setDate], [setHours]. *)
Definition getTime (d : Z) : Z := d.

Definition getDate (d : Z) : Z := DateFromTime (LocalTime d).

Definition setDate (d : Z) (date : Z) : Z :=
  let t := LocalTime d in
  let newDate :=
    MakeDate (MakeDay (YearFromTime t) (MonthFromTime t) date)
             (TimeWithinDay t) in
  UTC newDate.

Definition setHours (d : Z) (hour min sec ms : Z) : Z :=
  let t := LocalTime d in
  let date := MakeDate (Day t) (MakeTime hour min sec ms) in
  UTC date.

(** The local calendar day and the local time of day of an instant. *)
Definition localDay (d : Z) : Z := Day (LocalTime d).
Definition localTimeOfDay (d : Z) : Z := TimeWithinDay (LocalTime d).
End Local.

End JSDate.

(* ===================================================================== *)
(** * JavaScript strings

    Strings are byte strings: the UTF-8 text of the JavaScript string, which
    is taken to be well formed.  The methods below are those [index.js]
    calls.  White space is that of [String.prototype.trim] (the WhiteSpace
    and LineTerminator code points of ECMA-262), in its UTF-8 encoding;
    [toLowerCase] maps the ASCII letters, which is all that the comparison
    with ['list reminders'] can see. *)
(* ===================================================================== *)

Module JSString.

Definition nl : string := String (ascii_of_nat 10) "".

Definition byte (c : ascii) : nat := nat_of_ascii c.

(** U+0009 to U+000D and U+0020. *)
Definition isWhiteSpace1 (c : ascii) : bool :=
  ((9 <=? byte c)%nat && (byte c <=? 13)%nat) || (byte c =? 32)%nat.

(** U+00A0 (C2 A0). *)
Definition isWhiteSpace2 (c1 c2 : ascii) : bool :=
  (byte c1 =? 194)%nat && (byte c2 =? 160)%nat.

(** U+1680 (E1 9A 80); U+2000 to U+200A, U+2028, U+2029 and U+202F
    (E2 80 80 to 8A, A8, A9, AF); U+205F (E2 81 9F); U+3000 (E3 80 80);
    U+FEFF (EF BB BF). *)
Definition isWhiteSpace3 (c1 c2 c3 : ascii) : bool :=
  ((byte c1 =? 225)%nat && (byte c2 =? 154)%nat && (byte c3 =? 128)%nat)
  || ((byte c1 =? 226)%nat && (byte c2 =? 128)%nat
      && (((128 <=? byte c3)%nat && (byte c3 <=? 138)%nat)
          || (byte c3 =? 168)%nat || (byte c3 =? 169)%nat || (byte c3 =? 175)%nat))
  || ((byte c1 =? 226)%nat && (byte c2 =? 129)%nat && (byte c3 =? 159)%nat)
  || ((byte c1 =? 227)%nat && (byte c2 =? 128)%nat && (byte c3 =? 128)%nat)
  || ((byte c1 =? 239)%nat && (byte c2 =? 187)%nat && (byte c3 =? 191)%nat).

(** The text after one leading white-space code point, if there is one. *)
Definition whiteSpacePrefix (s : string) : option string :=
  match s with
  | EmptyString => None
  | String c1 s1 =>
      if isWhiteSpace1 c1 then Some s1
      else match s1 with
           | EmptyString => None
           | String c2 s2 =>
               if isWhiteSpace2 c1 c2 then Some s2
               else match s2 with
                    | EmptyString => None
                    | String c3 s3 =>
                        if isWhiteSpace3 c1 c2 c3 then Some s3 else None
                    end
           end
  end.

Definition lowerChar (c : ascii) : ascii :=
  let n := nat_of_ascii c in
  if ((65 <=? n)%nat && (n <=? 90)%nat) then ascii_of_nat (n + 32) else c.

Fixpoint toLowerCase (s : string) : string :=
  match s with
  | EmptyString => EmptyString
  | String c s' => String (lowerChar c) (toLowerCase s')
  end.

Fixpoint trimStart (s : string) : string :=
  match s with
  | EmptyString => EmptyString
  | String c1 s1 =>
      if isWhiteSpace1 c1 then trimStart s1
      else match s1 with
           | EmptyString => s
           | String c2 s2 =>
               if isWhiteSpace2 c1 c2 then trimStart s2
               else match s2 with
                    | EmptyString => s
                    | String c3 s3 =>
                        if isWhiteSpace3 c1 c2 c3 then trimStart s3 else s
                    end
           end
  end.

(** The text is white space from end to end. *)
Fixpoint allWhiteSpace (s : string) : bool :=
  match s with
  | EmptyString => true
  | String c1 s1 =>
      if isWhiteSpace1 c1 then allWhiteSpace s1
      else match s1 with
           | EmptyString => false
           | String c2 s2 =>
               if isWhiteSpace2 c1 c2 then allWhiteSpace s2
               else match s2 with
                    | EmptyString => false
                    | String c3 s3 =>
                        if isWhiteSpace3 c1 c2 c3 then allWhiteSpace s3 else false
                    end
           end
  end.

(** The text up to the point from which only white space follows. *)
Fixpoint trimEnd (s : string) : string :=
  match s with
  | EmptyString => EmptyString
  | String c s' => if allWhiteSpace s then EmptyString else String c (trimEnd s')
  end.

Definition trim (s : string) : string := trimEnd (trimStart s).

Fixpoint drop (n : nat) (s : string) : string :=
  match n, s with
  | O, _ => s
  | S _, EmptyString => EmptyString
  | S n', String _ s' => drop n' s'
  end.

(** [s.startsWith(p)] and [s.substring(n)]. *)
Definition startsWith (s p : string) : bool := String.prefix p s.
Definition substring (s : string) (n : nat) : string := drop n s.

(** [s.replace(pat, '')] with a string pattern: the first occurrence of
    [pat] is removed. *)
Fixpoint replaceFirst (pat s : string) : string :=
  if String.prefix pat s then drop (String.length pat) s
  else match s with
       | EmptyString => EmptyString
       | String c s' => String c (replaceFirst pat s')
       end.

(** [s.replace(/  +/g, ' ')]: every run of two or more spaces becomes one
    space, that is, a space that follows a space is dropped. *)
Fixpoint squeezeFrom (afterSpace : bool) (s : string) : string :=
  match s with
  | EmptyString => EmptyString
  | String c s' =>
      if Ascii.eqb c " "%char
      then if afterSpace then squeezeFrom true s'
           else String c (squeezeFrom true s')
      else String c (squeezeFrom false s')
  end.

Definition squeezeSpaces (s : string) : string := squeezeFrom false s.

(** Number to string, for template literals. *)
Definition ofZ (z : Z) : string := NilZero.string_of_int (Z.to_int z).
Definition ofNat (n : nat) : string := ofZ (Z.of_nat n).

End JSString.

(* ===================================================================== *)
(** * Data model *)
(* ===================================================================== *)

(** A record of [reminders.json].  [remindAt] and [originalDate] are ISO-8601
    strings in the file ([Date.prototype.toISOString]); a record carries the
    instants they denote, which is what [new Date(r.remindAt)] reads back. *)
Record Reminder := mkReminder {
  id : string;
  chatId : string;
  reminderMessage : string;
  remindAt : Z;
  originalSubject : string;
  originalDate : Z
}.

(** The text of [reminders.json], up to what [JSON.parse] makes of it:
    either text that [JSON.parse] rejects, or text that it reads as an array
    of reminder records.  [JSON.stringify] produces text of the second kind,
    and [JSON.parse] reads it back as the array it was produced from.  Text
    that is JSON of another shape (an object, null, an array with an element
    that is not such a record) is not represented: every property below is
    about a file that is absent, or that [JSON.parse] rejects, or that holds
    an array of reminder records. *)
Inductive FileText :=
| Garbled
| Json (reminders : list Reminder).

Inductive JSError :=
| FsError (code : string)
| SyntaxError
| SendError.

Inductive LogEntry :=
| Log (line : string)
| LogError (line : string) (err : JSError).

(** A job of node-schedule: its name, its date, and the variables that the
    callback of [scheduleNewReminder] closes over. *)
Record Job := mkJob {
  job_name : string;
  job_date : Z;
  job_chatId : string;
  job_message : string
}.

(** One result of [chrono.parse]: [start.date()] and [text]. *)
Record ChronoResult := mkChronoResult {
  start_date : Z;
  text : string
}.

(** How [fs.writeFileSync] goes: it replaces the file; or it is refused
    before the file is opened (no permission, read-only file system) and the
    file stays as it was; or it fails once the file has been opened for
    writing, which has truncated it (full disk, input/output error), and the
    file is left cut short. *)
Inductive WriteMode :=
| WriteOk
| WriteRefused
| WriteTorn.

Record World := mkWorld {
  clock : Z;                         (* what [new Date()] returns        *)
  disk : option FileText;            (* REMINDERS_FILE; [None]: absent   *)
  fs_read_ok : bool;                 (* [fs.readFileSync] succeeds       *)
  fs_write : WriteMode;              (* how [fs.writeFileSync] goes      *)
  gateway_ok : bool;                 (* [client.sendMessage] resolves    *)
  jobs : list Job;                   (* pending node-schedule jobs       *)
  outbox : list (string * string);   (* (chatId, text) delivered         *)
  replies : list string;             (* [message.reply] texts            *)
  console : list LogEntry
}.

(** [fs.writeFileSync] succeeds. *)
Definition fs_write_ok (w : World) : bool :=
  match fs_write w with
  | WriteOk => true
  | _ => false
  end.

Definition set_disk (d : option FileText) (w : World) : World :=
  mkWorld (clock w) d (fs_read_ok w) (fs_write w) (gateway_ok w)
          (jobs w) (outbox w) (replies w) (console w).
Definition set_jobs (j : list Job) (w : World) : World :=
  mkWorld (clock w) (disk w) (fs_read_ok w) (fs_write w) (gateway_ok w)
          j (outbox w) (replies w) (console w).
Definition set_outbox (o : list (string * string)) (w : World) : World :=
  mkWorld (clock w) (disk w) (fs_read_ok w) (fs_write w) (gateway_ok w)
          (jobs w) o (replies w) (console w).
Definition set_replies (r : list string) (w : World) : World :=
  mkWorld (clock w) (disk w) (fs_read_ok w) (fs_write w) (gateway_ok w)
          (jobs w) (outbox w) r (console w).
Definition set_console (c : list LogEntry) (w : World) : World :=
  mkWorld (clock w) (disk w) (fs_read_ok w) (fs_write w) (gateway_ok w)
          (jobs w) (outbox w) (replies w) c.

(** The records held by the Store: the array in the file, none when the
    file is absent or is not JSON. *)
Definition records (w : World) : list Reminder :=
  match disk w with
  | Some (Json rs) => rs
  | _ => []
  end.

(* ===================================================================== *)
(** * Computations: state and exceptions *)
(* ===================================================================== *)

Inductive Completion (A : Type) :=
| Normal (a : A)
| Throw (e : JSError).
Arguments Normal {A} a.
Arguments Throw {A} e.

Definition M (A : Type) : Type := World -> Completion A * World.

Definition ret {A} (a : A) : M A := fun w => (Normal a, w).

Definition bind {A B} (c : M A) (k : A -> M B) : M B :=
  fun w =>
    match c w with
    | (Normal a, w') => k a w'
    | (Throw e, w') => (Throw e, w')
    end.

Definition throw {A} (e : JSError) : M A := fun w => (Throw e, w).

(** [try { body } catch (err) { handler }] *)
Definition try_catch {A} (body : M A) (handler : JSError -> M A) : M A :=
  fun w =>
    match body w with
    | (Normal a, w') => (Normal a, w')
    | (Throw e, w') => handler e w'
    end.

Declare Scope js_scope.
Delimit Scope js_scope with js.
Notation "x <- c ;; k" := (bind c (fun x => k))
  (at level 61, c at next level, right associativity) : js_scope.
Notation "c ;; k" := (bind c (fun _ => k))
  (at level 61, right associativity) : js_scope.
Local Open Scope js_scope.

Definition result {A} (c : M A) (w : World) : Completion A := fst (c w).
Definition after {A} (c : M A) (w : World) : World := snd (c w).

Definition returns {A} (c : M A) (w : World) : Prop :=
  exists a, result c w = Normal a.

(* ===================================================================== *)
(** * The collaborators: fs, JSON, console, Date, whatsapp-web.js,
      node-schedule *)
(* ===================================================================== *)

(** The file system: [existsSync] never throws; [writeFileSync] replaces the
    file, or throws: refused, it leaves the file as it was; torn, it leaves a
    truncated file, which is not JSON (the text written is cut short, and
    what is written is always the text of an array); [readFileSync] returns
    the text of the file, or throws. *)
Definition fs_existsSync : M bool :=
  fun w => (Normal (match disk w with Some _ => true | None => false end), w).

Definition fs_writeFileSync (data : FileText) : M unit :=
  fun w =>
    match fs_write w with
    | WriteOk => (Normal tt, set_disk (Some data) w)
    | WriteRefused => (Throw (FsError "EACCES"), w)
    | WriteTorn => (Throw (FsError "ENOSPC"), set_disk (Some Garbled) w)
    end.

Definition fs_readFileSync : M FileText :=
  fun w =>
    match disk w with
    | None => (Throw (FsError "ENOENT"), w)
    | Some data =>
        if fs_read_ok w then (Normal data, w)
        else (Throw (FsError "EACCES"), w)
    end.

Definition JSON_parse (data : FileText) : M (list Reminder) :=
  match data with
  | Garbled => throw SyntaxError
  | Json rs => ret rs
  end.

Definition JSON_stringify (reminders : list Reminder) : FileText :=
  Json reminders.

Definition console_log (line : string) : M unit :=
  fun w => (Normal tt, set_console (console w ++ [Log line]) w).

Definition console_error (line : string) (err : JSError) : M unit :=
  fun w => (Normal tt, set_console (console w ++ [LogError line err]) w).

Definition new_Date : M Z := fun w => (Normal (clock w), w).

Definition message_reply (body : string) : M unit :=
  fun w => (Normal tt, set_replies (replies w ++ [body]) w).

Definition client_sendMessage (chat body : string) : M unit :=
  fun w =>
    if gateway_ok w then (Normal tt, set_outbox (outbox w ++ [(chat, body)]) w)
    else (Throw SendError, w).

(** [schedule.scheduleJob(name, date, callback)]: node-schedule sets the
    timer when the date is not before [Date.now()], and otherwise sets none
    (and returns null).  A job is kept with the variables its callback
    closes over; jobs of the same name are kept side by side. *)
Definition schedule_scheduleJob (j : Job) : M unit :=
  fun w =>
    if clock w <=? job_date j then (Normal tt, set_jobs (jobs w ++ [j]) w)
    else (Normal tt, w).

(** [Array.prototype.sort(compare)]: a stable sort; [compare a b <= 0] keeps
    [a] before [b]. *)
Fixpoint Array_insert {A} (compare : A -> A -> Z) (a : A) (l : list A) : list A :=
  match l with
  | [] => [a]
  | b :: l' =>
      if compare a b <=? 0 then a :: b :: l'
      else b :: Array_insert compare a l'
  end.

Fixpoint Array_sort {A} (compare : A -> A -> Z) (l : list A) : list A :=
  match l with
  | [] => []
  | a :: l' => Array_insert compare a (Array_sort compare l')
  end.

(* ===================================================================== *)
(** * [index.js] *)
(* ===================================================================== *)

Definition BOT_TAG : string := "@bot".

Section Bot.

(** The environment of the process: its time zone, chrono-node (whose parse
    depends on the reference instant, the current time) and the locale's
    date formats. *)
Variable LocalTZA : Z -> bool -> Z.
Variable chrono_parse : Z -> string -> list ChronoResult.
Variable toLocaleString : Z -> string.
Variable toLocaleDateString : Z -> string.

Import JSString.

(* ------------------------------------------------------------------- *)
(** ** Helper functions (file system) *)

Definition loadReminders : M (list Reminder) :=
  try_catch
    (present <- fs_existsSync ;;
     if negb present then
       fs_writeFileSync (Json []) ;;
       ret []
     else
       data <- fs_readFileSync ;;
       JSON_parse data)
    (fun err =>
       console_error "Error loading reminders:" err ;;
       ret []).

Definition saveReminders (reminders : list Reminder) : M unit :=
  try_catch
    (let data := JSON_stringify reminders in
     fs_writeFileSync data)
    (fun err => console_error "Error saving reminders:" err).

Definition removeReminder (jobId : string) : M unit :=
  console_log ("Removing reminder " ++ jobId ++ " from file.") ;;
  reminders <- loadReminders ;;
  let updatedReminders :=
    filter (fun r => negb (String.eqb (id r) jobId)) reminders in
  saveReminders updatedReminders.

(* ------------------------------------------------------------------- *)
(** ** Reminder scheduling and management *)

(** The callback that [scheduleNewReminder] hands to node-schedule. *)
Definition reminderJob (jobId chat message : string) : M unit :=
  try_catch
    (console_log ("Sending reminder (Job ID: " ++ jobId ++ ") to " ++ chat) ;;
     client_sendMessage chat message ;;
     removeReminder jobId)
    (fun err => console_error "Failed to send reminder:" err).

Definition scheduleNewReminder (chat message : string) (date : Z) : M string :=
  let jobId := "reminder_" ++ chat ++ "_" ++ ofZ (JSDate.getTime date) in
  schedule_scheduleJob (mkJob jobId date chat message) ;;
  console_log ("Scheduled new reminder: " ++ jobId) ;;
  ret jobId.

(** The body of the [for ... of] loop of [rescheduleReminders], run over
    the reminders left; [validReminders] is the array built so far. *)
Fixpoint rescheduleLoop (now : Z) (reminders validReminders : list Reminder)
  : M (list Reminder) :=
  match reminders with
  | [] => ret validReminders
  | reminder :: rest =>
      let remindAt := remindAt reminder in
      if now <? remindAt then
        scheduleNewReminder (chatId reminder) (reminderMessage reminder) remindAt ;;
        rescheduleLoop now rest (validReminders ++ [reminder])
      else
        console_log ("Skipping past reminder: " ++ id reminder) ;;
        rescheduleLoop now rest validReminders
  end.

Definition rescheduleReminders : M unit :=
  reminders <- loadReminders ;;
  now <- new_Date ;;
  console_log ("Loading " ++ ofNat (List.length reminders)
               ++ " reminders from file...") ;;
  validReminders <- rescheduleLoop now reminders [] ;;
  saveReminders validReminders ;;
  console_log ("Rescheduled " ++ ofNat (List.length validReminders)
               ++ " upcoming reminders.").

Definition listReminders (chat : string) : M unit :=
  reminders <- loadReminders ;;
  let groupReminders := filter (fun r => String.eqb (chatId r) chat) reminders in
  if (List.length groupReminders =? 0)%nat then
    message_reply "There are no upcoming reminders for this group.  Zilch! Nada! 🎉"
  else
    let reply := "⏰ *Upcoming Reminders for this Group* ⏰" ++ nl in
    let groupReminders :=
      Array_sort (fun a b => remindAt a - remindAt b) groupReminders in
    let reply :=
      fold_left
        (fun reply r =>
           let remindDate := remindAt r in
           let originalEventDate := originalDate r in
           let reply := reply ++ (nl ++ "-----------------------------" ++ nl) in
           let reply := reply ++ ("*Subject:* " ++ originalSubject r ++ nl) in
           let reply :=
             reply ++ ("*Event Date:* " ++ toLocaleDateString originalEventDate ++ nl) in
           reply ++ ("*Reminder On:* " ++ toLocaleString remindDate))
        groupReminders reply in
    message_reply reply.

(* ------------------------------------------------------------------- *)
(** ** Command handler *)

Definition handleCommand (commandText chat : string) : M unit :=
  if String.eqb (toLowerCase commandText) "list reminders" then
    listReminders chat
  else
    try_catch
      (reference <- new_Date ;;
       let results := chrono_parse reference commandText in
       match results with
       | [] =>
           message_reply
             ("Sorry, I couldn't understand the date or time. Try something like:"
              ++ nl ++ nl ++ "*@bot next Monday exam fees are due*")
       | first :: _ =>
           let parsedDate := start_date first in
           let dateText := text first in
           let reminderSubject :=
             trim (squeezeSpaces (replaceFirst dateText commandText)) in
           if String.eqb reminderSubject "" then
             message_reply
               ("Please provide a subject for the reminder. Example:"
                ++ nl ++ "*@bot tomorrow submit the assignment*")
           else
             let remindAt := JSDate.getTime parsedDate in
             let remindAt :=
               JSDate.setDate LocalTZA remindAt
                              (JSDate.getDate LocalTZA remindAt - 1) in
             let remindAt := JSDate.setHours LocalTZA remindAt 9 0 0 0 in
             now <- new_Date ;;
             if remindAt <? now then
               message_reply
                 "That date is too soon or already in the past! I can't set a reminder for it."
             else
               let reminderMessage :=
                 "🔔 *REMINDER* 🔔" ++ nl ++ nl
                 ++ "Tomorrow: " ++ reminderSubject ++ " 📅" in
               jobId <- scheduleNewReminder chat reminderMessage remindAt ;;
               let newReminder :=
                 mkReminder jobId chat reminderMessage remindAt
                            reminderSubject parsedDate in
               reminders <- loadReminders ;;
               let reminders := (reminders ++ [newReminder])%list in
               saveReminders reminders ;;
               message_reply
                 ("Got it! 👍" ++ nl ++ nl ++ "I'll remind this group on *"
                  ++ toLocaleString remindAt ++ "*.")
       end)
      (fun err =>
         console_error "Error parsing command:" err ;;
         message_reply "Oops, something went wrong. Please try again.").

(* ------------------------------------------------------------------- *)
(** ** WhatsApp client events *)

Definition onReady : M unit :=
  console_log "Client is ready! Listening for messages..." ;;
  rescheduleReminders.

Definition onMessage (body : string) (isGroup : bool) (chatName chat : string)
  : M unit :=
  if startsWith body BOT_TAG then
    if isGroup then
      console_log ("Received command from group: " ++ chatName) ;;
      let commandText := trim (substring body (String.length BOT_TAG)) in
      handleCommand commandText chat
    else ret tt
  else ret tt.

End Bot.

(* ===================================================================== *)
(** * Vocabulary of the properties *)
(* ===================================================================== *)

(** The Store holds the collection [rs]: the file is a JSON array that can
    be read, and no write to it is cut short (a write replaces the file or
    is refused). *)
Definition stores (w : World) (rs : list Reminder) : Prop :=
  disk w = Some (Json rs) /\ fs_read_ok w = true /\ fs_write w <> WriteTorn.

(** The fire time that [handleCommand] computes from the parsed date
    ([index.js], lines 133 to 135), written as the code computes it. *)
Abbreviation fireTime LocalTZA parsedDate :=
  (JSDate.setHours LocalTZA
     (JSDate.setDate LocalTZA (JSDate.getTime parsedDate)
        (JSDate.getDate LocalTZA (JSDate.getTime parsedDate) - 1))
     9 0 0 0).

(** The job that [rescheduleReminders] registers for a record. *)
Definition jobOf (r : Reminder) : Job :=
  mkJob ("reminder_" ++ chatId r ++ "_" ++ JSString.ofZ (remindAt r))
        (remindAt r) (chatId r) (reminderMessage r).

(** The two sides of the partition of [rescheduleReminders]. *)
Definition isFuture (now : Z) (r : Reminder) : bool := now <? remindAt r.
Definition isPast (now : Z) (r : Reminder) : bool := remindAt r <=? now.

Definition hasId (jobId : string) (r : Reminder) : bool := String.eqb (id r) jobId.
Definition inChat (chat : string) (r : Reminder) : bool := String.eqb (chatId r) chat.

Definition byRemindAt (a b : Reminder) : Prop := remindAt a <= remindAt b.

(** The subject that [handleCommand] extracts from a command. *)
Definition subjectOf (dateText commandText : string) : string :=
  JSString.trim (JSString.squeezeSpaces (JSString.replaceFirst dateText commandText)).

Definition tooSoonReply : string :=
  "That date is too soon or already in the past! I can't set a reminder for it.".

Definition noRemindersReply : string :=
  "There are no upcoming reminders for this group.  Zilch! Nada! 🎉".
Definition listHeader : string :=
  "⏰ *Upcoming Reminders for this Group* ⏰" ++ JSString.nl.

(** What a listing shows for one record: a rule, then the subject, the date
    of the event and the date of the reminder, each on its line. *)
Definition listedEntry (toLocaleString toLocaleDateString : Z -> string)
           (r : Reminder) : string :=
  JSString.nl ++ "-----------------------------" ++ JSString.nl
  ++ "*Subject:* " ++ originalSubject r ++ JSString.nl
  ++ "*Event Date:* " ++ toLocaleDateString (originalDate r) ++ JSString.nl
  ++ "*Reminder On:* " ++ toLocaleString (remindAt r).

(** The reply that lists the records [listed], in that order: the header
    followed by the entries, or the no-reminders text when there is none. *)
Definition listingReply (toLocaleString toLocaleDateString : Z -> string)
           (listed : list Reminder) : string :=
  match listed with
  | [] => noRemindersReply
  | _ =>
      listHeader
      ++ String.concat ""
           (map (listedEntry toLocaleString toLocaleDateString) listed)
  end.

Definition loadErrorLine : string := "Error loading reminders:".
Definition saveErrorLine : string := "Error saving reminders:".
Definition sendErrorLine : string := "Failed to send reminder:".
Definition sendingLine (jobId chat : string) : string :=
  "Sending reminder (Job ID: " ++ jobId ++ ") to " ++ chat.

(** The console line that the loop of [rescheduleReminders] prints for a
    record. *)
Definition rescheduleLine (now : Z) (r : Reminder) : LogEntry :=
  if isFuture now r
  then Log ("Scheduled new reminder: " ++ job_name (jobOf r))
  else Log ("Skipping past reminder: " ++ id r).

(** The callback of a registered job. *)
Definition callback (j : Job) : M unit :=
  reminderJob (job_name j) (job_chatId j) (job_message j).

(** The notification text, the record and the confirmation that
    [handleCommand] builds for a subject and a parsed date. *)
Definition reminderText (subject : string) : string :=
  "🔔 *REMINDER* 🔔" ++ JSString.nl ++ JSString.nl
  ++ "Tomorrow: " ++ subject ++ " 📅".

Definition newReminder (LocalTZA : Z -> bool -> Z) (chat subject : string)
           (parsedDate : Z)
  : Reminder :=
  let fireAt := fireTime LocalTZA parsedDate in
  mkReminder ("reminder_" ++ chat ++ "_" ++ JSString.ofZ fireAt) chat
             (reminderText subject) fireAt subject parsedDate.

Definition gotItReply (toLocaleString : Z -> string) (fireAt : Z) : string :=
  "Got it! 👍" ++ JSString.nl ++ JSString.nl ++ "I'll remind this group on *"
  ++ toLocaleString fireAt ++ "*.".

Definition noDateReply : string :=
  "Sorry, I couldn't understand the date or time. Try something like:"
  ++ JSString.nl ++ JSString.nl ++ "*@bot next Monday exam fees are due*".
Definition noSubjectReply : string :=
  "Please provide a subject for the reminder. Example:"
  ++ JSString.nl ++ "*@bot tomorrow submit the assignment*".
Definition oopsReply : string := "Oops, something went wrong. Please try again.".

(** ** Time zones *)

(** The wall clock is regular: a local time that a change of offset skips
    is read as a time of the same local day, and 09:00:00.000 is skipped on
    no day.  Daylight-saving changes in the small hours are of this kind. *)
Definition wallClockRegular (LocalTZA : Z -> bool -> Z) : Prop :=
  (forall x, JSDate.Day (JSDate.LocalTime LocalTZA (JSDate.UTC LocalTZA x))
             = JSDate.Day x)
  /\ (forall day,
        JSDate.LocalTime LocalTZA
          (JSDate.UTC LocalTZA (day * JSDate.msPerDay + 9 * JSDate.msPerHour))
        = day * JSDate.msPerDay + 9 * JSDate.msPerHour).

(** Local time is at the fixed offset [offset] from UTC. *)
Definition fixedOffset (LocalTZA : Z -> bool -> Z) (offset : Z) : Prop :=
  forall t isUTC, LocalTZA t isUTC = offset.

(** UTC itself. *)
Definition utcZone : Z -> bool -> Z := fun _ _ => 0.

(** A zone on UTC until 02:00 on 1970-01-04, when its clocks go forward to
    03:00: one hour ahead of UTC from then on.  Local times from 02:00 to
    03:00 of that day are skipped, and read with the offset before the
    change. *)
Definition springForward : Z := 3 * JSDate.msPerDay + 2 * JSDate.msPerHour.
Definition dstZone : Z -> bool -> Z :=
  fun t isUTC =>
    if isUTC
    then if t <? springForward then 0 else JSDate.msPerHour
    else if t <? springForward + JSDate.msPerHour then 0 else JSDate.msPerHour.

(** The file is one that the model represents: absent, rejected by
    [JSON.parse], or a JSON array of reminder records. *)
Definition fileIsAbsentCorruptOrCollection (w : World) : Prop :=
  disk w = None \/ disk w = Some Garbled \/ exists rs, disk w = Some (Json rs).

(** ** A concrete environment, for running the model *)

(** A chrono-node that finds one date expression, whatever the text. *)
Definition chrono_finds (date : Z) (matched : string)
  : Z -> string -> list ChronoResult :=
  fun _ _ => [mkChronoResult date matched].

Definition plainDate (t : Z) : string := JSString.ofZ t.

(** 1970-01-02T09:00:00.000 and 1970-01-05T09:00:00.000, local time UTC. *)
Definition day1_9am : Z := 118800000.
Definition day4_9am : Z := 378000000.

Definition feesReminder : Reminder :=
  mkReminder "reminder_g1_378000000" "g1" "fees" day4_9am "exam fees" 432000000.
Definition quizReminder : Reminder :=
  mkReminder "reminder_g1_118800000" "g1" "quiz" day1_9am "quiz" 172800000.
Definition tripReminder : Reminder :=
  mkReminder "reminder_g2_118800000" "g2" "trip" day1_9am "trip" 172800000.

(** A healthy process at instant [now] whose file holds [rs]. *)
Definition worldAt (now : Z) (rs : list Reminder) : World :=
  mkWorld now (Some (Json rs)) true WriteOk true [] [] [] [].

(* ===================================================================== *)
(** * The model at work *)
(* ===================================================================== *)

Example toLowerCase_ex : JSString.toLowerCase "List REMINDERS" = "list reminders".
Proof. reflexivity. Qed.

Example trim_ex : JSString.trim "  pay  fees " = "pay  fees".
Proof. reflexivity. Qed.

(** A no-break space (C2 A0) in front, an em space (E2 80 83) and a line feed
    behind. *)
Example trim_unicode_ex :
  let nbsp := String (ascii_of_nat 194) (String (ascii_of_nat 160) "") in
  let emsp :=
    String (ascii_of_nat 226) (String (ascii_of_nat 128) (String (ascii_of_nat 131) "")) in
  JSString.trim (nbsp ++ " list reminders" ++ emsp ++ JSString.nl) = "list reminders".
Proof. reflexivity. Qed.

Example subject_ex :
  JSString.trim (JSString.squeezeSpaces
                   (JSString.replaceFirst "next Monday" "pay next Monday  the   fees"))
  = "pay the fees".
Proof. reflexivity. Qed.

Example ofZ_ex : JSString.ofZ 118800000 = "118800000" /\ JSString.ofZ 0 = "0"
                 /\ JSString.ofZ (-5) = "-5".
Proof. repeat split; reflexivity. Qed.

(** 2024-03-01T12:00:00Z is time value 1709294400000; the day before is the
    leap day. *)
Example calendar_ex :
  JSDate.YearFromTime 1709294400000 = 2024
  /\ JSDate.MonthFromTime 1709294400000 = 2
  /\ JSDate.DateFromTime 1709294400000 = 1
  /\ JSDate.setDate utcZone 1709294400000 0 = 1709208000000
  /\ JSDate.MonthFromTime 1709208000000 = 1
  /\ JSDate.DateFromTime 1709208000000 = 29.
Proof. repeat split; reflexivity. Qed.

(** The fire time for an event at 02:30 local time on 1970-01-05, on UTC and
    in [dstZone], where the clocks went forward the night before: 09:00 on
    1970-01-04 is 09:00 UTC in the one and 08:00 UTC in the other. *)
Example fireTime_ex :
  fireTime utcZone 354600000 = 3 * JSDate.msPerDay + 9 * JSDate.msPerHour
  /\ JSDate.LocalTime dstZone 351000000 = 354600000
  /\ fireTime dstZone 351000000 = 3 * JSDate.msPerDay + 8 * JSDate.msPerHour.
Proof. repeat split; reflexivity. Qed.

(** A reminder from the command to the notification: the command stores the
    record and registers the job; when the job's time has come its callback
    delivers the text and the record leaves the file. *)
Example lifecycle_ex :
  let handle :=
    handleCommand utcZone (chrono_finds 432000000 "next Monday") plainDate plainDate in
  let r := newReminder utcZone "g1" "exam fees" 432000000 in
  let w1 := after (handle "next Monday exam fees" "g1") (worldAt 0 []) in
  let w2 := after (callback (jobOf r))
                  (mkWorld day4_9am (disk w1) true WriteOk true [] [] [] []) in
  id r = "reminder_g1_378000000"
  /\ records w1 = [r] /\ jobs w1 = [jobOf r]
  /\ replies w1 = [gotItReply plainDate day4_9am]
  /\ outbox w2 = [("g1", reminderText "exam fees")] /\ records w2 = [].
Proof. vm_compute. repeat split. Qed.

(** Only group messages that start with the tag are commands. *)
Example onMessage_ex :
  let on := onMessage utcZone (chrono_finds 432000000 "next Monday") plainDate plainDate in
  after (on "hello @bot" true "class" "g1") (worldAt 0 []) = worldAt 0 []
  /\ after (on "@bot next Monday exam fees" false "me" "c1") (worldAt 0 [])
     = worldAt 0 []
  /\ records (after (on "@bot   next Monday exam fees" true "class" "g1")
                    (worldAt 0 []))
     = [newReminder utcZone "g1" "exam fees" 432000000].
Proof. vm_compute. repeat split. Qed.

Lemma YearFromTime_spec (t : Z) :
  JSDate.DayFromYear (JSDate.YearFromTime t) <= JSDate.Day t
  < JSDate.DayFromYear (JSDate.YearFromTime t + 1).
Proof.
  unfold JSDate.YearFromTime.
  set (d := JSDate.Day t). clearbody d.
  set (y := 1970 + d * 400 / 146097).
  destruct (Z.ltb_spec d (JSDate.DayFromYear y)) as [Hlt | Hge].
  - subst y. unfold JSDate.DayFromYear in *.
    Z.div_mod_to_equations; lia.
  - destruct (Z.leb_spec (JSDate.DayFromYear (y + 1)) d) as [Hle | Hgt];
      subst y; unfold JSDate.DayFromYear in *;
      Z.div_mod_to_equations; lia.
Qed.

(* ===================================================================== *)
(** * The Store: [loadReminders], [saveReminders], [removeReminder] *)
(* ===================================================================== *)


Ltac wsimpl :=
  cbn [set_console set_jobs set_disk set_replies set_outbox
       clock disk fs_read_ok fs_write gateway_ok jobs outbox replies console
       fst snd] in *.

Lemma fs_write_ok_true (w : World) : fs_write_ok w = true -> fs_write w = WriteOk.
Proof. unfold fs_write_ok. destruct (fs_write w); intros; congruence. Qed.

Lemma fs_write_ok_set (w w' : World) :
  fs_write w' = fs_write w -> fs_write_ok w' = fs_write_ok w.
Proof. unfold fs_write_ok. intros ->. reflexivity. Qed.

(** What a load does, case by case. *)
Lemma loadReminders_run (w : World) :
  loadReminders w =
  match disk w with
  | None =>
      match fs_write w with
      | WriteOk => (Normal [], set_disk (Some (Json [])) w)
      | WriteRefused =>
          (Normal [],
           set_console (console w ++ [LogError loadErrorLine (FsError "EACCES")]) w)
      | WriteTorn =>
          (Normal [],
           set_console (console w ++ [LogError loadErrorLine (FsError "ENOSPC")])
                       (set_disk (Some Garbled) w))
      end
  | Some data =>
      if fs_read_ok w then
        match data with
        | Json rs => (Normal rs, w)
        | Garbled =>
            (Normal [],
             set_console (console w ++ [LogError loadErrorLine SyntaxError]) w)
        end
      else (Normal [],
            set_console (console w ++ [LogError loadErrorLine (FsError "EACCES")]) w)
  end.
Proof.
  unfold loadReminders, try_catch, bind, fs_existsSync, fs_writeFileSync,
    fs_readFileSync.
  destruct w as [c d r wr g j o rp cs]; cbn.
  destruct d as [[|rs]|]; cbn; destruct r; destruct wr; cbn; reflexivity.
Qed.

Lemma loadReminders_stores (w : World) (rs : list Reminder) :
  stores w rs -> loadReminders w = (Normal rs, w).
Proof.
  intros (Hd & Hr & _). rewrite loadReminders_run, Hd, Hr. reflexivity.
Qed.

Lemma loadReminders_readable (w : World) (rs : list Reminder) :
  disk w = Some (Json rs) -> fs_read_ok w = true ->
  loadReminders w = (Normal rs, w).
Proof.
  intros Hd Hr. rewrite loadReminders_run, Hd, Hr. reflexivity.
Qed.

Ltac load_readable rs Hd Hr :=
  match goal with
  | |- context [loadReminders ?w0] =>
      rewrite (loadReminders_readable w0 rs Hd Hr)
  end.

(** What a save does: the file is replaced; or the write is refused, which
    is logged; or the write is cut short, which is logged and leaves the
    file truncated. *)
Lemma saveReminders_run (rs : list Reminder) (w : World) :
  saveReminders rs w =
  match fs_write w with
  | WriteOk => (Normal tt, set_disk (Some (Json rs)) w)
  | WriteRefused =>
      (Normal tt,
       set_console (console w ++ [LogError saveErrorLine (FsError "EACCES")]) w)
  | WriteTorn =>
      (Normal tt,
       set_console (console w ++ [LogError saveErrorLine (FsError "ENOSPC")])
                   (set_disk (Some Garbled) w))
  end.
Proof.
  unfold saveReminders, try_catch, fs_writeFileSync, JSON_stringify.
  destruct (fs_write w); reflexivity.
Qed.

Lemma removeReminder_run (jobId : string) (w : World) :
  removeReminder jobId w =
  let w1 := set_console
              (console w ++ [Log ("Removing reminder " ++ jobId ++ " from file.")]) w in
  let (loaded, w2) := loadReminders w1 in
  match loaded with
  | Normal reminders =>
      saveReminders (filter (fun r => negb (String.eqb (id r) jobId)) reminders) w2
  | Throw e => (Throw e, w2)
  end.
Proof.
  unfold removeReminder, bind, console_log. cbn.
  destruct (loadReminders _) as [[rs|e] w2]; reflexivity.
Qed.

Lemma filter_keeps_all {A} (f : A -> bool) (l : list A) :
  (forall a, In a l -> f a = true) -> filter f l = l.
Proof.
  induction l as [|a l IH]; intros H; cbn; [reflexivity|].
  rewrite (H a (or_introl eq_refl)). f_equal. apply IH.
  intros b Hb. apply H. right. exact Hb.
Qed.

(** C6: [loadReminders] never throws.  When the file is absent it returns the
    empty array, having written the empty collection to the file (if the
    file system lets it write); when the file cannot be read or is not JSON
    it logs the error and returns the empty array. *)
Theorem loadReminders_never_throws (w : World) :
  (exists rs, result loadReminders w = Normal rs)
  /\ (disk w = None ->
      result loadReminders w = Normal []
      /\ (fs_write_ok w = true ->
          disk (after loadReminders w) = Some (Json [])))
  /\ (disk w = Some Garbled \/ (disk w <> None /\ fs_read_ok w = false) ->
      result loadReminders w = Normal []
      /\ exists err,
          console (after loadReminders w)
          = (console w ++ [LogError loadErrorLine err])%list).
Proof.
  unfold result, after. rewrite loadReminders_run.
  destruct w as [c d r wr g j o rp cs]; cbn.
  split; [|split].
  - destruct d as [[|rs]|]; destruct r; destruct wr; cbn; eauto.
  - intros ->. destruct wr; cbn; split; auto; intros; discriminate.
  - intros [-> | [Hd ->]].
    + destruct r; cbn; eauto.
    + destruct d as [data|]; [|congruence]. cbn; eauto.
Qed.

(** C7: on a Store that holds a valid collection, loading and saving what was
    loaded leaves the file as it was, record for record. *)
Theorem save_load_roundtrip (w : World) (rs : list Reminder) :
  stores w rs ->
  let roundtrip := (reminders <- loadReminders ;; saveReminders reminders)%js in
  result roundtrip w = Normal tt
  /\ disk (after roundtrip w) = disk w
  /\ records (after roundtrip w) = rs.
Proof.
  intros H roundtrip. pose proof H as (Hd & Hr & Ht).
  unfold roundtrip, result, after, bind.
  rewrite (loadReminders_stores w rs H), saveReminders_run.
  unfold records.
  destruct (fs_write w); cbn; rewrite ?Hd; auto; congruence.
Qed.

(** C8: removing an id that no stored record has leaves the file as it was
    and does not throw. *)
Theorem removeReminder_absent_id (w : World) (rs : list Reminder) (jobId : string) :
  stores w rs ->
  (forall r, In r rs -> id r <> jobId) ->
  result (removeReminder jobId) w = Normal tt
  /\ disk (after (removeReminder jobId) w) = disk w.
Proof.
  intros (Hd & Hr & Ht) Hno.
  unfold result, after. rewrite removeReminder_run. cbn zeta.
  load_readable rs Hd Hr.
  rewrite saveReminders_run.
  rewrite filter_keeps_all.
  - destruct w as [c d r wr g j o rp cs]; cbn in *.
    destruct wr; cbn; auto. congruence.
  - intros r Hin. apply negb_true_iff, String.eqb_neq. apply Hno, Hin.
Qed.

(** C10: [removeReminder] writes back the stored records without every
    record that has the given id, however many there are. *)
Theorem removeReminder_removes_all (w : World) (rs : list Reminder) (jobId : string) :
  stores w rs ->
  fs_write_ok w = true ->
  records (after (removeReminder jobId) w)
  = filter (fun r => negb (hasId jobId r)) rs
  /\ (forall r, In r (records (after (removeReminder jobId) w)) -> id r <> jobId)
  /\ (forall r, In r rs -> id r <> jobId ->
                In r (records (after (removeReminder jobId) w))).
Proof.
  intros (Hd & Hr & _) Hw.
  assert (E : records (after (removeReminder jobId) w)
              = filter (fun r => negb (hasId jobId r)) rs).
  { unfold after. rewrite removeReminder_run. cbn zeta.
    load_readable rs Hd Hr.
    rewrite saveReminders_run.
    apply fs_write_ok_true in Hw.
    destruct w as [c d r wr g j o rp cs]; cbn in *. subst wr. reflexivity. }
  rewrite E. split; [reflexivity|]. split.
  - intros r Hin. apply filter_In in Hin as [_ Hin].
    apply negb_true_iff, String.eqb_neq in Hin. exact Hin.
  - intros r Hin Hne. apply filter_In. split; [exact Hin|].
    apply negb_true_iff, String.eqb_neq. exact Hne.
Qed.

(* ===================================================================== *)
(** * Start-up: [rescheduleReminders] *)
(* ===================================================================== *)

Lemma scheduleNewReminder_run (chat message : string) (date : Z) (w : World) :
  clock w <= date ->
  scheduleNewReminder chat message date w
  = (Normal (job_name (jobOf (mkReminder "" chat message date "" 0))),
     set_console
       (console w ++ [Log ("Scheduled new reminder: "
                           ++ "reminder_" ++ chat ++ "_" ++ JSString.ofZ date)])
       (set_jobs (jobs w ++ [mkJob ("reminder_" ++ chat ++ "_" ++ JSString.ofZ date)
                                   date chat message]) w)).
Proof.
  intros H. unfold scheduleNewReminder, bind, schedule_scheduleJob, console_log, ret.
  cbn [job_date]. apply Z.leb_le in H. rewrite H. reflexivity.
Qed.

Lemma rescheduleLoop_run (rs acc : list Reminder) (w : World) :
  rescheduleLoop (clock w) rs acc w
  = (Normal (acc ++ filter (isFuture (clock w)) rs)%list,
     set_console (console w ++ map (rescheduleLine (clock w)) rs)
       (set_jobs (jobs w ++ map jobOf (filter (isFuture (clock w)) rs)) w)).
Proof.
  revert acc w. induction rs as [|r rs IH]; intros acc w.
  - cbn [rescheduleLoop filter map]. rewrite !app_nil_r.
    destruct w; reflexivity.
  - cbn [rescheduleLoop filter map].
    unfold rescheduleLine at 1.
    change (clock w <? remindAt r) with (isFuture (clock w) r).
    destruct (isFuture (clock w) r) eqn:E.
    + unfold bind at 1.
      rewrite scheduleNewReminder_run
        by (unfold isFuture in E; apply Z.ltb_lt in E; lia).
      match goal with
      | |- rescheduleLoop _ _ _ ?w1 = _ =>
          change (clock w) with (clock w1) at 1; rewrite (IH _ w1)
      end.
      destruct w as [c d rd wr g j o rp cs]; wsimpl. cbn [map].
      rewrite <- !app_assoc. reflexivity.
    + unfold bind at 1, console_log at 1.
      match goal with
      | |- rescheduleLoop _ _ _ ?w1 = _ =>
          change (clock w) with (clock w1) at 1; rewrite (IH _ w1)
      end.
      destruct w as [c d rd wr g j o rp cs]; wsimpl.
      rewrite <- !app_assoc. reflexivity.
Qed.

Lemma loadReminders_returns (w : World) :
  exists rs w1,
    loadReminders w = (Normal rs, w1)
    /\ clock w1 = clock w /\ fs_write_ok w1 = fs_write_ok w
    /\ jobs w1 = jobs w /\ outbox w1 = outbox w
    /\ incl rs (records w) /\ incl (records w1) (records w).
Proof.
  rewrite loadReminders_run. unfold records.
  destruct w as [c d rd wr g j o rp cs]; wsimpl.
  destruct d as [[|rs]|]; destruct rd; destruct wr; wsimpl;
    eexists; eexists; (split; [reflexivity|]); wsimpl;
    repeat split; auto using incl_refl, incl_nil_l.
Qed.

Lemma rescheduleReminders_returns (w : World) :
  result rescheduleReminders w = Normal tt.
Proof.
  unfold result, rescheduleReminders.
  destruct (loadReminders_returns w) as (rs & w1 & E & Hc & _).
  unfold bind at 1. rewrite E.
  unfold bind at 1, new_Date at 1.
  unfold bind at 1, console_log at 1.
  unfold bind at 1.
  match goal with
  | |- context [rescheduleLoop _ _ _ ?w2] =>
      change (clock w1) with (clock w2); rewrite (rescheduleLoop_run rs [] w2)
  end.
  unfold bind at 1. rewrite saveReminders_run.
  wsimpl. destruct (fs_write w1); reflexivity.
Qed.

(** C4: at start-up, for a Store that holds [rs] at instant [now], every
    record is either future ([now < remindAt]) or past ([remindAt <= now]);
    [rescheduleReminders] registers one job for each future record, in file
    order, writes back the future records and nothing else, and sends
    nothing. *)
Theorem rescheduleReminders_partition (w : World) (rs : list Reminder) :
  stores w rs ->
  let now := clock w in
  let w' := after rescheduleReminders w in
  (forall r, isPast now r = negb (isFuture now r))
  /\ result rescheduleReminders w = Normal tt
  /\ jobs w' = (jobs w ++ map jobOf (filter (isFuture now) rs))%list
  /\ (fs_write_ok w = true ->
      disk w' = Some (Json (filter (isFuture now) rs))
      /\ forall r, In r rs -> isPast now r = true -> ~ In r (records w'))
  /\ outbox w' = outbox w.
Proof.
  intros H now w'. subst now.
  assert (Hpart : forall now r, isPast now r = negb (isFuture now r)).
  { intros now r. unfold isPast, isFuture. rewrite Z.ltb_antisym, negb_involutive.
    reflexivity. }
  split; [apply Hpart|]. split; [apply rescheduleReminders_returns|].
  subst w'. remember (after rescheduleReminders w) as w' eqn:E.
  unfold after, rescheduleReminders in E.
  unfold bind at 1 in E. rewrite (loadReminders_stores w rs H) in E.
  unfold bind at 1, new_Date at 1 in E.
  unfold bind at 1, console_log at 1 in E.
  unfold bind at 1 in E.
  match type of E with
  | context [rescheduleLoop _ _ _ ?w2] =>
      change (clock w) with (clock w2) in E;
      rewrite (rescheduleLoop_run rs [] w2) in E
  end.
  unfold bind at 1 in E. rewrite saveReminders_run in E.
  unfold console_log in E.
  destruct w as [c d rd wr g j o rp cs]; wsimpl.
  rewrite app_nil_l in E.
  destruct wr; wsimpl; subst w'; wsimpl; (split; [reflexivity|]);
    (split; [|reflexivity]); intros Hw; try discriminate Hw.
  split; [reflexivity|].
  intros r Hin Hp Hin'. unfold records in Hin'; wsimpl.
  apply filter_In in Hin' as [_ Hf]. rewrite Hpart, Hf in Hp. discriminate.
Qed.

(* ===================================================================== *)
(** * The Store, continued: removal twice over, and failed writes *)
(* ===================================================================== *)

Lemma removeReminder_returns (jobId : string) (w : World) :
  result (removeReminder jobId) w = Normal tt.
Proof.
  unfold result. rewrite removeReminder_run. cbn zeta.
  match goal with
  | |- context [loadReminders ?w0] =>
      destruct (loadReminders_returns w0) as (rs & w1 & E & _)
  end.
  rewrite E, saveReminders_run. destruct (fs_write w1); reflexivity.
Qed.

Lemma filter_idem {A} (f : A -> bool) (l : list A) :
  filter f (filter f l) = filter f l.
Proof.
  apply filter_keeps_all. intros a Ha. apply filter_In in Ha. apply Ha.
Qed.

Lemma removeReminder_stores (jobId : string) (w : World) (rs : list Reminder) :
  stores w rs ->
  let w' := after (removeReminder jobId) w in
  (fs_write_ok w = true ->
   stores w' (filter (fun r => negb (hasId jobId r)) rs))
  /\ (fs_write_ok w = false -> stores w' rs)
  /\ fs_write_ok w' = fs_write_ok w.
Proof.
  intros (Hd & Hr & Ht) w'. subst w'. unfold after, stores, fs_write_ok.
  rewrite removeReminder_run. cbv zeta.
  load_readable rs Hd Hr.
  rewrite saveReminders_run.
  destruct w as [c d rd wr g j o rp cs]; cbn in *. subst d rd.
  destruct wr; cbn; repeat split; auto; try discriminate; congruence.
Qed.

(** X3: removing an id twice leaves the file as removing it once does. *)
Lemma removeReminder_idempotent (jobId : string) (w : World) (rs : list Reminder) :
  stores w rs ->
  disk (after (removeReminder jobId ;; removeReminder jobId)%js w)
  = disk (after (removeReminder jobId) w).
Proof.
  intros H.
  destruct (removeReminder_stores jobId w rs H) as (Hok & Hfail & Hw).
  unfold after at 1, bind.
  pose proof (removeReminder_returns jobId w) as R. unfold result in R.
  unfold after in Hok, Hfail, Hw |- *.
  destruct (removeReminder jobId w) as [res w1]. cbn [fst snd] in *. subst res.
  destruct (fs_write_ok w) eqn:E.
  - specialize (Hok eq_refl).
    destruct (removeReminder_stores jobId w1 _ Hok) as (Hok1 & _ & _).
    destruct (Hok1 Hw) as [Hd1 _]. unfold after in Hd1.
    rewrite Hd1, filter_idem. symmetry. apply Hok.
  - specialize (Hfail eq_refl).
    destruct (removeReminder_stores jobId w1 _ Hfail) as (_ & Hfail1 & _).
    destruct (Hfail1 Hw) as [Hd1 _]. unfold after in Hd1.
    rewrite Hd1. symmetry. apply Hfail.
Qed.

(** C9, as the code has it: [saveReminders] never throws: a failed write is
    caught and logged.  Hence, on a file that holds a collection, adding a
    record (load, push, save, as [handleCommand] does), [removeReminder] and
    [rescheduleReminders] complete without throwing.  The file keeps its
    content when the write is refused before the file is opened; when the
    write fails after the file was opened, the file is left cut short, and
    the next load logs the error and returns the empty array. *)
Theorem saveReminders_never_throws :
  (forall rs w, result (saveReminders rs) w = Normal tt)
  /\ (forall rs w,
        fs_write w = WriteRefused ->
        disk (after (saveReminders rs) w) = disk w
        /\ console (after (saveReminders rs) w)
           = (console w ++ [LogError saveErrorLine (FsError "EACCES")])%list)
  /\ (forall rs w,
        fs_write w = WriteTorn ->
        let w' := after (saveReminders rs) w in
        disk w' = Some Garbled
        /\ console w'
           = (console w ++ [LogError saveErrorLine (FsError "ENOSPC")])%list
        /\ result loadReminders w' = Normal []
        /\ exists err,
            console (after loadReminders w')
            = (console w' ++ [LogError loadErrorLine err])%list)
  /\ (forall rs w,
        disk w = Some (Json rs) ->
        (forall r,
            result (reminders <- loadReminders ;;
                    saveReminders (reminders ++ [r])%list)%js w = Normal tt)
        /\ (forall jobId, result (removeReminder jobId) w = Normal tt)
        /\ result rescheduleReminders w = Normal tt).
Proof.
  split; [|split; [|split]].
  - intros rs w. unfold result. rewrite saveReminders_run.
    destruct (fs_write w); reflexivity.
  - intros rs w Hw. unfold after. rewrite saveReminders_run, Hw.
    destruct w; wsimpl. split; reflexivity.
  - intros rs w Hw w'. subst w'. unfold after.
    rewrite saveReminders_run, Hw. cbn [snd]. unfold result, after.
    rewrite loadReminders_run.
    destruct w as [c d rd wr g j o rp cs]; cbn.
    destruct rd; cbn; (split; [reflexivity|]); (split; [reflexivity|]);
      (split; [reflexivity|]); eexists; reflexivity.
  - intros rs w _. split; [|split].
    + intros r. unfold result, bind.
      destruct (loadReminders_returns w) as (l & w1 & E & _). rewrite E.
      rewrite saveReminders_run. destruct (fs_write w1); reflexivity.
    + intros jobId. apply removeReminder_returns.
    + apply rescheduleReminders_returns.
Qed.

(* ===================================================================== *)
(** * Listing: [listReminders] *)
(* ===================================================================== *)

Section Sorting.
Context {A : Type} (key : A -> Z).

Let compare (a b : A) : Z := key a - key b.
Let ordered (a b : A) : Prop := key a <= key b.

Lemma Array_insert_perm (a : A) (l : list A) :
  Permutation (Array_insert compare a l) (a :: l).
Proof.
  induction l as [|b l IH]; cbn; [apply Permutation_refl|].
  destruct (compare a b <=? 0); [apply Permutation_refl|].
  eapply perm_trans; [apply perm_skip, IH | apply perm_swap].
Qed.

Lemma Array_sort_perm (l : list A) : Permutation (Array_sort compare l) l.
Proof.
  induction l as [|a l IH]; cbn; [constructor|].
  eapply perm_trans; [apply Array_insert_perm | apply perm_skip, IH].
Qed.

Lemma Array_insert_sorted (a : A) (l : list A) :
  StronglySorted ordered l -> StronglySorted ordered (Array_insert compare a l).
Proof.
  induction l as [|b l IH]; intros Hs; cbn.
  - constructor; constructor.
  - inversion Hs as [|b' l' Hl Hb]; subst.
    destruct (Z.leb_spec (compare a b) 0) as [Hle | Hgt]; unfold compare in *.
    + constructor; [exact Hs|]. constructor; [unfold ordered; lia|].
      eapply Forall_impl; [|exact Hb]. unfold ordered. intros c Hc. lia.
    + constructor; [apply IH, Hl|].
      eapply Permutation_Forall;
        [apply Permutation_sym, Array_insert_perm|].
      constructor; [unfold ordered; lia | exact Hb].
Qed.

Lemma Array_sort_sorted (l : list A) : StronglySorted ordered (Array_sort compare l).
Proof.
  induction l as [|a l IH]; cbn; [constructor | apply Array_insert_sorted, IH].
Qed.

(** The sort is stable: records with the same key keep their order. *)
Lemma Array_insert_stable (k : Z) (a : A) (l : list A) :
  filter (fun x => key x =? k) (Array_insert compare a l)
  = filter (fun x => key x =? k) (a :: l).
Proof.
  induction l as [|b l IH]; [reflexivity|].
  cbn [Array_insert].
  destruct (Z.leb_spec (compare a b) 0) as [Hle | Hgt]; [reflexivity|].
  unfold compare in Hgt.
  cbn [filter] in *. rewrite IH.
  destruct (Z.eqb_spec (key a) k) as [Ha | Ha]; [|reflexivity].
  destruct (Z.eqb_spec (key b) k) as [Hb | Hb]; [lia | reflexivity].
Qed.

Lemma Array_sort_stable (k : Z) (l : list A) :
  filter (fun x => key x =? k) (Array_sort compare l)
  = filter (fun x => key x =? k) l.
Proof.
  induction l as [|a l IH]; [reflexivity|].
  cbn [Array_sort]. rewrite Array_insert_stable. cbn [filter].
  rewrite IH. reflexivity.
Qed.
End Sorting.

Section Listing.
Variable toLocaleString : Z -> string.
Variable toLocaleDateString : Z -> string.

Lemma append_assoc (a b c : string) : (a ++ b) ++ c = a ++ (b ++ c).
Proof.
  induction a as [|x a IH]; cbn; [reflexivity|]. rewrite IH. reflexivity.
Qed.

Lemma append_empty_r (a : string) : a ++ "" = a.
Proof.
  induction a as [|x a IH]; cbn; [reflexivity|]. rewrite IH. reflexivity.
Qed.

Lemma concat_empty_cons (x : string) (xs : list string) :
  String.concat "" (x :: xs) = x ++ String.concat "" xs.
Proof.
  destruct xs as [|y ys]; cbn [String.concat].
  - symmetry. apply append_empty_r.
  - reflexivity.
Qed.

(** The loop of [listReminders] appends to the reply, record after record,
    what a listing shows for the record. *)
Lemma listReminders_loop (l : list Reminder) (reply : string) :
  fold_left
    (fun reply r =>
       let remindDate := remindAt r in
       let originalEventDate := originalDate r in
       let reply :=
         reply ++ (JSString.nl ++ "-----------------------------" ++ JSString.nl) in
       let reply := reply ++ ("*Subject:* " ++ originalSubject r ++ JSString.nl) in
       let reply :=
         reply ++ ("*Event Date:* " ++ toLocaleDateString originalEventDate
                   ++ JSString.nl) in
       reply ++ ("*Reminder On:* " ++ toLocaleString remindDate))
    l reply
  = reply ++ String.concat "" (map (listedEntry toLocaleString toLocaleDateString) l).
Proof.
  revert reply. induction l as [|r l IH]; intros reply.
  - cbn [fold_left map String.concat]. symmetry. apply append_empty_r.
  - cbn [fold_left map]. rewrite IH, concat_empty_cons.
    cbv zeta. unfold listedEntry.
    rewrite !append_assoc. reflexivity.
Qed.

Lemma listReminders_run (w : World) (rs : list Reminder) (chat : string) :
  stores w rs ->
  listReminders toLocaleString toLocaleDateString chat w
  = (Normal tt,
     set_replies
       (replies w
        ++ [listingReply toLocaleString toLocaleDateString
              (Array_sort (fun a b => remindAt a - remindAt b)
                          (filter (inChat chat) rs))]) w).
Proof.
  intros H. unfold listReminders, bind.
  rewrite (loadReminders_stores w rs H).
  change (fun r : Reminder => String.eqb (chatId r) chat) with (inChat chat).
  destruct (filter (inChat chat) rs) as [|r l] eqn:E; [reflexivity|].
  cbn [List.length Nat.eqb].
  unfold message_reply, listingReply.
  rewrite listReminders_loop.
  destruct (Array_sort _ (r :: l)) as [|r' l'] eqn:E'; [|reflexivity].
  pose proof (Array_sort_perm remindAt (r :: l)) as P.
  cbv zeta in P. rewrite E' in P.
  apply Permutation_nil in P. discriminate.
Qed.

(** C5: on a Store that holds [rs], [listReminders] replies with the
    records of [rs] whose chatId is the given chat, each once, in
    ascending order of [remindAt] (whatever their order in the file, but
    keeping file order between equal times); it reads the file on each
    call and changes nothing but the replies. *)
Theorem listReminders_sorted_by_fire_time
        (w : World) (rs : list Reminder) (chat : string) :
  stores w rs ->
  exists listed,
    Permutation listed (filter (inChat chat) rs)
    /\ (forall r, In r listed <-> In r rs /\ chatId r = chat)
    /\ StronglySorted byRemindAt listed
    /\ (forall t, filter (fun r => remindAt r =? t) listed
                  = filter (fun r => remindAt r =? t) (filter (inChat chat) rs))
    /\ listReminders toLocaleString toLocaleDateString chat w
       = (Normal tt,
          set_replies
            (replies w
             ++ [listingReply toLocaleString toLocaleDateString listed]) w).
Proof.
  intros H.
  exists (Array_sort (fun a b => remindAt a - remindAt b) (filter (inChat chat) rs)).
  pose proof (Array_sort_perm remindAt (filter (inChat chat) rs)) as P.
  cbv zeta in P.
  split; [exact P|]. split; [|split; [|split]].
  - intros r. split.
    + intros Hin. apply (Permutation_in _ P) in Hin.
      apply filter_In in Hin as [Hin Hc]. split; [exact Hin|].
      apply String.eqb_eq. exact Hc.
    + intros [Hin Hc]. apply (Permutation_in _ (Permutation_sym P)).
      apply filter_In. split; [exact Hin|]. apply String.eqb_eq. exact Hc.
  - apply (Array_sort_sorted remindAt).
  - intros t. apply (Array_sort_stable remindAt).
  - apply listReminders_run, H.
Qed.
End Listing.

(* ===================================================================== *)
(** * Firing: the job callback *)
(* ===================================================================== *)

Lemma try_catch_returns {A} (body : M A) (handler : JSError -> M A) (w : World) :
  returns body w -> try_catch body handler w = body w.
Proof.
  intros [a R]. unfold result in R. unfold try_catch.
  destruct (body w) as [[a'|e] w']; [reflexivity | discriminate].
Qed.

Lemma reminderJob_run (jobId chat message : string) (w : World) :
  reminderJob jobId chat message w
  = let w1 := set_console (console w ++ [Log (sendingLine jobId chat)]) w in
    if gateway_ok w
    then removeReminder jobId (set_outbox (outbox w ++ [(chat, message)]) w1)
    else (Normal tt,
          set_console (console w1 ++ [LogError sendErrorLine SendError]) w1).
Proof.
  cbv zeta. destruct (gateway_ok w) eqn:G.
  - unfold reminderJob. rewrite try_catch_returns.
    + unfold bind at 1, console_log at 1. unfold bind at 1, client_sendMessage.
      wsimpl. rewrite G. reflexivity.
    + exists tt. unfold result, bind at 1, console_log at 1.
      unfold bind at 1, client_sendMessage. wsimpl. rewrite G.
      apply removeReminder_returns.
  - unfold reminderJob, try_catch, bind at 1, console_log at 1.
    unfold bind at 1, client_sendMessage. wsimpl. rewrite G. reflexivity.
Qed.

(** C1, as the code has it: the callback never throws.  When the send
    succeeds, the message is delivered to the job's chat and the callback
    then runs [removeReminder] on the job's name, so that a Store that holds
    [rs] and can be written holds [rs] without the records of that id.  When
    the send fails, the failure is logged, [removeReminder] is not run and
    the file is left as it was. *)
Theorem callback_removes_once_sent (j : Job) (w : World) :
  let w' := after (callback j) w in
  let sending := Log (sendingLine (job_name j) (job_chatId j)) in
  result (callback j) w = Normal tt
  /\ (gateway_ok w = true ->
      w' = after (removeReminder (job_name j))
                 (set_outbox (outbox w ++ [(job_chatId j, job_message j)])
                    (set_console (console w ++ [sending]) w))
      /\ outbox w' = (outbox w ++ [(job_chatId j, job_message j)])%list
      /\ forall rs, stores w rs -> fs_write_ok w = true ->
                    records w' = filter (fun r => negb (hasId (job_name j) r)) rs)
  /\ (gateway_ok w = false ->
      w' = set_console
             (console w ++ [sending; LogError sendErrorLine SendError]) w).
Proof.
  intros w' sending. subst w' sending. unfold callback, result, after.
  rewrite reminderJob_run. cbv zeta.
  split; [|split].
  - destruct (gateway_ok w); [apply removeReminder_returns | reflexivity].
  - intros G. rewrite G. split; [reflexivity|]. split.
    + rewrite removeReminder_run. cbv zeta.
      match goal with
      | |- context [loadReminders ?w0] =>
          destruct (loadReminders_returns w0) as (l & w1 & E & _ & _ & _ & Ho & _)
      end.
      rewrite E, saveReminders_run.
      destruct (fs_write w1); wsimpl; exact Ho.
    + intros rs (Hd & Hr & _) Hw.
      rewrite removeReminder_run. cbv zeta.
      load_readable rs Hd Hr.
      rewrite saveReminders_run. wsimpl.
      rewrite (fs_write_ok_true w Hw). reflexivity.
  - intros G. rewrite G. destruct w; wsimpl. rewrite <- app_assoc. reflexivity.
Qed.

(* ===================================================================== *)
(** * The fire time *)
(* ===================================================================== *)

Lemma MonthFromTime_range (t : Z) : 0 <= JSDate.MonthFromTime t <= 11.
Proof.
  unfold JSDate.MonthFromTime.
  repeat match goal with
         | |- context [if ?b then _ else _] => destruct b; [lia|]
         end.
  lia.
Qed.

(** Setting the day of the month to one less than it is moves the local
    date and time back by one day, across month and year ends too. *)
Lemma setDate_local (t : Z) :
  JSDate.MakeDate
    (JSDate.MakeDay (JSDate.YearFromTime t) (JSDate.MonthFromTime t)
                    (JSDate.DateFromTime t - 1))
    (JSDate.TimeWithinDay t)
  = t - JSDate.msPerDay.
Proof.
  unfold JSDate.MakeDate, JSDate.MakeDay.
  pose proof (MonthFromTime_range t) as Hm.
  rewrite (Z.div_small (JSDate.MonthFromTime t) 12) by lia.
  rewrite (Z.mod_small (JSDate.MonthFromTime t) 12) by lia.
  rewrite Z.add_0_r. cbv zeta.
  unfold JSDate.DateFromTime, JSDate.DayWithinYear.
  fold (JSDate.InLeapYear t).
  unfold JSDate.TimeWithinDay, JSDate.Day.
  pose proof (Z.div_mod t JSDate.msPerDay) as E.
  unfold JSDate.msPerDay in *.
  lia.
Qed.

Lemma setDate_previous (LocalTZA : Z -> bool -> Z) (d : Z) :
  JSDate.setDate LocalTZA d (JSDate.getDate LocalTZA d - 1)
  = JSDate.UTC LocalTZA (JSDate.LocalTime LocalTZA d - JSDate.msPerDay).
Proof.
  unfold JSDate.setDate, JSDate.getDate. cbv zeta.
  rewrite setDate_local. reflexivity.
Qed.

Lemma setHours_nine (LocalTZA : Z -> bool -> Z) (d : Z) :
  JSDate.setHours LocalTZA d 9 0 0 0
  = JSDate.UTC LocalTZA
      (JSDate.localDay LocalTZA d * JSDate.msPerDay + 9 * JSDate.msPerHour).
Proof. reflexivity. Qed.

Lemma Day_previous (t : Z) : JSDate.Day (t - JSDate.msPerDay) = JSDate.Day t - 1.
Proof.
  unfold JSDate.Day, JSDate.msPerDay.
  replace (t - 86400000) with (t + (-1) * 86400000) by lia.
  rewrite Z.div_add by lia. lia.
Qed.


(** On a regular wall clock the fire time is the instant of 09:00:00.000
    local time on the local calendar day before the day of the event. *)
Lemma fireTime_closed (LocalTZA : Z -> bool -> Z) (parsedDate : Z) :
  wallClockRegular LocalTZA ->
  fireTime LocalTZA parsedDate
  = JSDate.UTC LocalTZA
      ((JSDate.localDay LocalTZA parsedDate - 1) * JSDate.msPerDay
       + 9 * JSDate.msPerHour).
Proof.
  intros [Hday _].
  unfold JSDate.getTime. rewrite setDate_previous, setHours_nine.
  unfold JSDate.localDay. rewrite Hday, Day_previous. reflexivity.
Qed.


Lemma fixedOffset_regular (LocalTZA : Z -> bool -> Z) (offset : Z) :
  fixedOffset LocalTZA offset -> wallClockRegular LocalTZA.
Proof.
  intros H. unfold wallClockRegular, JSDate.LocalTime, JSDate.UTC.
  split; intros x; rewrite !H; [f_equal|]; lia.
Qed.

Lemma dstZone_regular : wallClockRegular dstZone.
Proof.
  unfold wallClockRegular, JSDate.LocalTime, JSDate.UTC, dstZone, springForward,
    JSDate.Day, JSDate.msPerDay, JSDate.msPerHour.
  split.
  - intros x.
    destruct (Z.ltb_spec x (3 * 86400000 + 2 * 3600000 + 3600000)) as [Hx | Hx].
    + rewrite Z.sub_0_r.
      destruct (Z.ltb_spec x (3 * 86400000 + 2 * 3600000)) as [Hy | Hy].
      * rewrite Z.add_0_r. reflexivity.
      * Z.div_mod_to_equations. lia.
    + destruct (Z.ltb_spec (x - 3600000) (3 * 86400000 + 2 * 3600000)) as [Hy | Hy];
        [lia|].
      f_equal. lia.
  - intros day.
    destruct (Z.ltb_spec (day * 86400000 + 9 * 3600000)
                         (3 * 86400000 + 2 * 3600000 + 3600000)) as [Hx | Hx].
    + rewrite Z.sub_0_r.
      destruct (Z.ltb_spec (day * 86400000 + 9 * 3600000)
                           (3 * 86400000 + 2 * 3600000)) as [Hy | Hy]; lia.
    + destruct (Z.ltb_spec (day * 86400000 + 9 * 3600000 - 3600000)
                           (3 * 86400000 + 2 * 3600000)) as [Hy | Hy]; lia.
Qed.

(* ===================================================================== *)
(** * Commands: [handleCommand] *)
(* ===================================================================== *)

Lemma records_set_replies (x : list string) (w : World) :
  records (set_replies x w) = records w.
Proof. reflexivity. Qed.

Section Commands.
Variable LocalTZA : Z -> bool -> Z.
Variable chrono_parse : Z -> string -> list ChronoResult.
Variable toLocaleString : Z -> string.
Variable toLocaleDateString : Z -> string.

Local Abbreviation handle :=
  (handleCommand LocalTZA chrono_parse toLocaleString toLocaleDateString).

Lemma handleCommand_list (w : World) (commandText chat : string) :
  JSString.toLowerCase commandText = "list reminders" ->
  handle commandText chat w
  = listReminders toLocaleString toLocaleDateString chat w.
Proof.
  intros H. unfold handleCommand. rewrite H. reflexivity.
Qed.

Lemma handleCommand_no_date (w : World) (commandText chat : string) :
  JSString.toLowerCase commandText <> "list reminders" ->
  chrono_parse (clock w) commandText = [] ->
  exists reply,
    handle commandText chat w = (Normal tt, set_replies (replies w ++ [reply]) w).
Proof.
  intros Hl Hp. unfold handleCommand.
  apply String.eqb_neq in Hl. rewrite Hl.
  unfold try_catch, bind at 1, new_Date at 1. rewrite Hp.
  eexists. reflexivity.
Qed.

Lemma handleCommand_no_subject (w : World) (commandText chat : string)
      (first : ChronoResult) (rest : list ChronoResult) :
  JSString.toLowerCase commandText <> "list reminders" ->
  chrono_parse (clock w) commandText = first :: rest ->
  subjectOf (text first) commandText = "" ->
  exists reply,
    handle commandText chat w = (Normal tt, set_replies (replies w ++ [reply]) w).
Proof.
  intros Hl Hp Hs. unfold handleCommand.
  apply String.eqb_neq in Hl. rewrite Hl.
  unfold try_catch, bind at 1, new_Date at 1. rewrite Hp. cbv zeta.
  unfold subjectOf in Hs. rewrite Hs.
  eexists. reflexivity.
Qed.

Lemma handleCommand_too_soon (w : World) (commandText chat : string)
      (first : ChronoResult) (rest : list ChronoResult) :
  JSString.toLowerCase commandText <> "list reminders" ->
  chrono_parse (clock w) commandText = first :: rest ->
  subjectOf (text first) commandText <> "" ->
  fireTime LocalTZA (start_date first) < clock w ->
  handle commandText chat w
  = (Normal tt, set_replies (replies w ++ [tooSoonReply]) w).
Proof.
  intros Hl Hp Hs Hf. unfold handleCommand.
  apply String.eqb_neq in Hl. rewrite Hl.
  unfold try_catch, bind at 1, new_Date at 1. rewrite Hp. cbv zeta.
  unfold subjectOf in Hs. apply String.eqb_neq in Hs. rewrite Hs.
  unfold bind at 1, new_Date at 1.
  apply Z.ltb_lt in Hf. rewrite Hf.
  reflexivity.
Qed.

Lemma handleCommand_accept (w : World) (commandText chat : string)
      (first : ChronoResult) (rest : list ChronoResult) :
  JSString.toLowerCase commandText <> "list reminders" ->
  chrono_parse (clock w) commandText = first :: rest ->
  subjectOf (text first) commandText <> "" ->
  clock w <= fireTime LocalTZA (start_date first) ->
  let r := newReminder LocalTZA chat (subjectOf (text first) commandText)
                       (start_date first) in
  let w1 := set_console (console w ++ [Log ("Scheduled new reminder: " ++ id r)])
              (set_jobs (jobs w ++ [jobOf r]) w) in
  exists l w2,
    loadReminders w1 = (Normal l, w2)
    /\ handle commandText chat w
       = (Normal tt,
          let w3 := after (saveReminders (l ++ [r])) w2 in
          set_replies (replies w3 ++ [gotItReply toLocaleString (remindAt r)]) w3).
Proof.
  intros Hl Hp Hs Hf r w1. subst w1 r.
  unfold newReminder, jobOf, subjectOf, reminderText, gotItReply in *.
  cbn [id chatId reminderMessage remindAt originalSubject originalDate].
  match goal with
  | |- context [loadReminders ?w0] =>
      destruct (loadReminders_returns w0) as (l & w2 & E & _); rewrite E
  end.
  exists l, w2. split; [reflexivity|].
  unfold handleCommand.
  apply String.eqb_neq in Hl. rewrite Hl.
  unfold try_catch, bind at 1, new_Date at 1. rewrite Hp. cbv zeta.
  apply String.eqb_neq in Hs. rewrite Hs.
  unfold bind at 1, new_Date at 1.
  pose proof Hf as Hf'. apply Z.ltb_ge in Hf'. rewrite Hf'.
  unfold bind at 1. rewrite scheduleNewReminder_run by exact Hf.
  unfold bind at 1. unfold jobOf. cbn [job_name chatId remindAt].
  rewrite E.
  unfold bind at 1, after. rewrite saveReminders_run.
  destruct (fs_write w2); reflexivity.
Qed.

(** What a command can do to the Store and to the registry: nothing, or one
    new job and at most one new record, both for a fire time that is not
    before the current instant. *)
Lemma handleCommand_outcome (w : World) (commandText chat : string) :
  let w' := after (handle commandText chat) w in
  result (handle commandText chat) w = Normal tt
  /\ ((jobs w' = jobs w /\ incl (records w') (records w))
      \/ exists first rest,
          let r := newReminder LocalTZA chat (subjectOf (text first) commandText)
                               (start_date first) in
          chrono_parse (clock w) commandText = first :: rest
          /\ clock w <= remindAt r
          /\ jobs w' = (jobs w ++ [jobOf r])%list
          /\ incl (records w') (records w ++ [r])).
Proof.
  intros w'. subst w'. unfold result, after.
  destruct (string_dec (JSString.toLowerCase commandText) "list reminders")
    as [Hl | Hl].
  { rewrite handleCommand_list by exact Hl.
    unfold listReminders, bind.
    destruct (loadReminders_returns w) as (l & w1 & E & _ & _ & Hj & _ & _ & Hr).
    rewrite E.
    destruct (Nat.eqb _ 0); unfold message_reply; cbn [fst snd];
      rewrite records_set_replies; wsimpl; auto. }
  destruct (chrono_parse (clock w) commandText) as [|first rest] eqn:Hp.
  { destruct (handleCommand_no_date w commandText chat Hl Hp) as [reply E].
    rewrite E. cbn [fst snd]. rewrite records_set_replies. wsimpl.
    auto using incl_refl. }
  destruct (string_dec (subjectOf (text first) commandText) "") as [Hs | Hs].
  { destruct (handleCommand_no_subject w commandText chat first rest Hl Hp Hs)
      as [reply E].
    rewrite E. cbn [fst snd]. rewrite records_set_replies. wsimpl.
    auto using incl_refl. }
  destruct (Z.lt_ge_cases (fireTime LocalTZA (start_date first)) (clock w))
    as [Hf | Hf].
  { rewrite (handleCommand_too_soon w commandText chat first rest Hl Hp Hs Hf).
    cbn [fst snd]. rewrite records_set_replies. wsimpl. auto using incl_refl. }
  destruct (handleCommand_accept w commandText chat first rest Hl Hp Hs Hf)
    as (l & w2 & E & R).
  cbv zeta in E, R. rewrite R. cbn [fst snd]. split; [reflexivity|].
  right. exists first, rest. cbv zeta.
  split; [reflexivity|]. split; [exact Hf|].
  match type of E with
  | loadReminders ?w1 = _ =>
      destruct (loadReminders_returns w1)
        as (l' & w2' & E' & _ & _ & Hj & _ & Hl' & Hr')
  end.
  rewrite E in E'. injection E' as <- <-.
  rewrite records_set_replies. unfold after. rewrite saveReminders_run.
  destruct (fs_write w2); cbn [snd]; wsimpl; rewrite Hj.
  - split; [reflexivity|]. unfold records at 1. wsimpl.
    apply incl_app; [|apply incl_appr, incl_refl].
    apply incl_appl. exact Hl'.
  - split; [reflexivity|].
    apply incl_appl. exact Hr'.
  - split; [reflexivity|]. unfold records at 1. wsimpl. apply incl_nil_l.
Qed.

(** C2, as the code has it: a command whose computed fire time is strictly
    before the current instant is rejected with the too-soon reply, and
    nothing else changes: no record is written and no job is registered.
    Every record that a command adds to the Store, and every job that it
    registers, has a fire time at or after the current instant. *)
Theorem handleCommand_rejects_past_fire_time
        (w : World) (commandText chat : string) :
  let w' := after (handle commandText chat) w in
  (forall first rest,
      JSString.toLowerCase commandText <> "list reminders" ->
      chrono_parse (clock w) commandText = first :: rest ->
      subjectOf (text first) commandText <> "" ->
      fireTime LocalTZA (start_date first) < clock w ->
      w' = set_replies (replies w ++ [tooSoonReply]) w)
  /\ (forall r, In r (records w') -> ~ In r (records w) -> clock w <= remindAt r)
  /\ (forall j, In j (jobs w') -> ~ In j (jobs w) -> clock w <= job_date j).
Proof.
  intros w'. split; [|split].
  - intros first rest Hl Hp Hs Hf. subst w'. unfold after.
    rewrite (handleCommand_too_soon w commandText chat first rest Hl Hp Hs Hf).
    reflexivity.
  - intros r Hin Hnew.
    destruct (handleCommand_outcome w commandText chat)
      as [_ [[_ Hr] | (first & rest & _ & Hf & _ & Hr)]];
      apply Hr in Hin; [contradiction|].
    apply in_app_or in Hin as [Hin | [<- | []]]; [contradiction | exact Hf].
  - intros j Hin Hnew.
    destruct (handleCommand_outcome w commandText chat)
      as [_ [[Hj _] | (first & rest & _ & Hf & Hj & _)]];
      fold w' in Hj; rewrite Hj in Hin; [contradiction|].
    apply in_app_or in Hin as [Hin | [<- | []]]; [contradiction | exact Hf].
Qed.

End Commands.

Lemma worldAt_stores (now : Z) (rs : list Reminder) : stores (worldAt now rs) rs.
Proof. repeat split. discriminate. Qed.

(* ===================================================================== *)
(** * Concrete runs *)
(* ===================================================================== *)

(** The gateway is down when the timer of the quiz reminder goes off: the
    callback completes, nothing is delivered, and the record of the job is
    still in the Store. *)
Lemma callback_send_failure_keeps_record :
  let j := jobOf quizReminder in
  let w := mkWorld day1_9am (Some (Json [quizReminder; feesReminder]))
                   true WriteOk false [j; jobOf feesReminder] [] [] [] in
  let w' := after (callback j) w in
  job_name j = id quizReminder
  /\ result (callback j) w = Normal tt
  /\ outbox w' = []
  /\ records w' = [quizReminder; feesReminder]
  /\ ~ (forall r, In r (records w') -> id r <> job_name j).
Proof.
  cbv zeta. repeat split; try (vm_compute; reflexivity).
  intros H. apply (H quizReminder); [vm_compute; auto | reflexivity].
Qed.

Lemma callback_removes_once_sent_witness :
  let j := jobOf quizReminder in
  let w := worldAt day1_9am [quizReminder; feesReminder; quizReminder] in
  outbox (after (callback j) w) = [("g1", "quiz")]
  /\ records (after (callback j) w) = [feesReminder].
Proof.
  cbv zeta.
  destruct (callback_removes_once_sent
              (jobOf quizReminder)
              (worldAt day1_9am [quizReminder; feesReminder; quizReminder]))
    as (_ & Hsent & _).
  destruct (Hsent eq_refl) as (_ & Ho & Hr).
  split; [exact Ho|].
  apply (Hr [quizReminder; feesReminder; quizReminder]);
    [apply worldAt_stores | reflexivity].
Defined.

(** The command resolves to 1970-01-03, so the fire time is 1970-01-02 at
    09:00; the command arrives at exactly that instant and is accepted. *)
Lemma handleCommand_accepts_fire_time_now :
  let w := worldAt day1_9am [] in
  let r := newReminder utcZone "g1" "quiz" 172800000 in
  let w' := after (handleCommand utcZone (chrono_finds 172800000 "tomorrow")
                                 plainDate plainDate "tomorrow quiz" "g1") w in
  fireTime utcZone 172800000 <= clock w
  /\ remindAt r = clock w
  /\ records w' = [r]
  /\ jobs w' = [jobOf r]
  /\ ~ In tooSoonReply (replies w').
Proof.
  cbv zeta. split; [vm_compute; discriminate|].
  repeat split; try (vm_compute; reflexivity).
  vm_compute. intros [H | []]. discriminate H.
Qed.

Lemma handleCommand_rejects_past_fire_time_witness :
  let w := worldAt day4_9am [feesReminder] in
  after (handleCommand utcZone (chrono_finds 172800000 "tomorrow")
                       plainDate plainDate "tomorrow quiz" "g1") w
  = set_replies [tooSoonReply] w.
Proof.
  cbv zeta.
  apply (proj1 (handleCommand_rejects_past_fire_time
                  utcZone (chrono_finds 172800000 "tomorrow") plainDate plainDate
                  (worldAt day4_9am [feesReminder]) "tomorrow quiz" "g1")
               (mkChronoResult 172800000 "tomorrow") []).
  - vm_compute. discriminate.
  - reflexivity.
  - vm_compute. discriminate.
  - vm_compute. reflexivity.
Defined.


Lemma rescheduleReminders_partition_witness :
  let w := worldAt 200000000 [quizReminder; feesReminder; tripReminder] in
  jobs (after rescheduleReminders w) = [jobOf feesReminder]
  /\ disk (after rescheduleReminders w) = Some (Json [feesReminder])
  /\ outbox (after rescheduleReminders w) = [].
Proof.
  cbv zeta.
  destruct (rescheduleReminders_partition
              (worldAt 200000000 [quizReminder; feesReminder; tripReminder])
              [quizReminder; feesReminder; tripReminder])
    as (_ & _ & Hj & Hd & Ho); [apply worldAt_stores|].
  split; [exact Hj|]. split; [exact (proj1 (Hd eq_refl)) | exact Ho].
Defined.

Lemma listReminders_sorted_by_fire_time_witness :
  let w := worldAt 0 [feesReminder; tripReminder; quizReminder] in
  exists listed,
    Permutation listed [feesReminder; quizReminder]
    /\ StronglySorted byRemindAt listed
    /\ replies (after (listReminders plainDate plainDate "g1") w)
       = [listingReply plainDate plainDate listed].
Proof.
  cbv zeta.
  destruct (listReminders_sorted_by_fire_time
              plainDate plainDate
              (worldAt 0 [feesReminder; tripReminder; quizReminder])
              [feesReminder; tripReminder; quizReminder] "g1")
    as (listed & Hp & _ & Hs & _ & Hrun); [apply worldAt_stores|].
  exists listed. split; [exact Hp|]. split; [exact Hs|].
  unfold after. rewrite Hrun. reflexivity.
Defined.

Lemma loadReminders_never_throws_witness :
  result loadReminders (mkWorld 0 None true WriteOk true [] [] [] []) = Normal []
  /\ disk (after loadReminders (mkWorld 0 None true WriteOk true [] [] [] []))
     = Some (Json [])
  /\ result loadReminders (mkWorld 0 (Some Garbled) true WriteOk true [] [] [] [])
     = Normal [].
Proof.
  destruct (loadReminders_never_throws (mkWorld 0 None true WriteOk true [] [] [] []))
    as (_ & Habsent & _).
  destruct (Habsent eq_refl) as [Hr Hd].
  destruct (loadReminders_never_throws
              (mkWorld 0 (Some Garbled) true WriteOk true [] [] [] []))
    as (_ & _ & Hbad).
  destruct (Hbad (or_introl eq_refl)) as [Hr' _].
  split; [exact Hr|]. split; [exact (Hd eq_refl) | exact Hr'].
Defined.

Lemma save_load_roundtrip_witness :
  let w := worldAt 0 [feesReminder; quizReminder] in
  disk (after (bind loadReminders saveReminders) w) = disk w.
Proof.
  cbv zeta.
  apply (save_load_roundtrip (worldAt 0 [feesReminder; quizReminder])
                             [feesReminder; quizReminder]).
  apply worldAt_stores.
Defined.

Lemma removeReminder_absent_id_witness :
  let w := worldAt 0 [feesReminder; quizReminder] in
  result (removeReminder "reminder_g9_0") w = Normal tt
  /\ disk (after (removeReminder "reminder_g9_0") w) = disk w.
Proof.
  cbv zeta.
  apply (removeReminder_absent_id (worldAt 0 [feesReminder; quizReminder])
                                  [feesReminder; quizReminder]).
  - apply worldAt_stores.
  - intros r [<- | [<- | []]]; vm_compute; discriminate.
Defined.

(** The disk fills up while the two records are written over the one that
    the file holds: [saveReminders] completes, and the file no longer holds
    any record. *)
Lemma saveReminders_torn_write_loses_file :
  let w := mkWorld 0 (Some (Json [feesReminder])) true WriteTorn true [] [] [] [] in
  let w' := after (saveReminders [feesReminder; quizReminder]) w in
  result (saveReminders [feesReminder; quizReminder]) w = Normal tt
  /\ console w' = [LogError saveErrorLine (FsError "ENOSPC")]
  /\ disk w = Some (Json [feesReminder])
  /\ disk w' = Some Garbled
  /\ disk w' <> disk w
  /\ records w' = []
  /\ result loadReminders w' = Normal [].
Proof.
  cbv zeta. repeat split; try (vm_compute; reflexivity).
  vm_compute. discriminate.
Qed.

Lemma saveReminders_never_throws_witness :
  let w := mkWorld 0 (Some (Json [feesReminder])) true WriteRefused true [] [] [] [] in
  let v := mkWorld 0 (Some (Json [feesReminder])) true WriteTorn true [] [] [] [] in
  (result (saveReminders [quizReminder]) w = Normal tt
   /\ disk (after (saveReminders [quizReminder]) w) = Some (Json [feesReminder]))
  /\ disk (after (saveReminders [quizReminder]) v) = Some Garbled
  /\ result (removeReminder (id feesReminder)) v = Normal tt.
Proof.
  cbv zeta.
  destruct saveReminders_never_throws as (Hret & Hrefused & Htorn & Hops).
  split; [split; [apply Hret|]|split].
  - apply (Hrefused [quizReminder]
             (mkWorld 0 (Some (Json [feesReminder])) true WriteRefused true [] [] [] [])).
    reflexivity.
  - apply (Htorn [quizReminder]
             (mkWorld 0 (Some (Json [feesReminder])) true WriteTorn true [] [] [] [])).
    reflexivity.
  - apply (Hops [feesReminder]
             (mkWorld 0 (Some (Json [feesReminder])) true WriteTorn true [] [] [] [])).
    reflexivity.
Defined.

(** Two records with the same id, as two commands for the same chat and
    fire time leave them. *)
Lemma removeReminder_removes_all_witness :
  let w := worldAt 0 [quizReminder; feesReminder; quizReminder] in
  records (after (removeReminder (id quizReminder)) w) = [feesReminder].
Proof.
  cbv zeta.
  apply (proj1 (removeReminder_removes_all
                  (worldAt 0 [quizReminder; feesReminder; quizReminder])
                  [quizReminder; feesReminder; quizReminder]
                  (id quizReminder) (worldAt_stores _ _) eq_refl)).
Defined.

(* ===================================================================== *)
(** * Further properties of the Store *)
(* ===================================================================== *)

(** What a load leaves alone. *)
Lemma loadReminders_frame (w : World) :
  let w1 := after loadReminders w in
  clock w1 = clock w /\ fs_read_ok w1 = fs_read_ok w
  /\ fs_write w1 = fs_write w /\ gateway_ok w1 = gateway_ok w
  /\ jobs w1 = jobs w /\ outbox w1 = outbox w /\ replies w1 = replies w.
Proof.
  cbv zeta. unfold after. rewrite loadReminders_run.
  destruct w as [c d rd wr g j o rp cs]; wsimpl.
  destruct d as [[|rs]|]; destruct rd; destruct wr; wsimpl; repeat split.
Qed.

Lemma saveReminders_frame (rs : list Reminder) (w : World) :
  let w1 := after (saveReminders rs) w in
  clock w1 = clock w /\ fs_read_ok w1 = fs_read_ok w
  /\ fs_write w1 = fs_write w /\ gateway_ok w1 = gateway_ok w
  /\ jobs w1 = jobs w /\ outbox w1 = outbox w /\ replies w1 = replies w.
Proof.
  cbv zeta. unfold after. rewrite saveReminders_run.
  destruct w as [c d rd wr g j o rp cs]; wsimpl.
  destruct wr; wsimpl; repeat split.
Qed.

(** X1: what the next load returns after a save.  When the write succeeds
    and the file can be read, it is the collection that was saved.  When the
    write is refused, it is what a load would have returned before the save.
    When the write fails after the file was opened, the collection is lost:
    the load logs an error and returns the empty array, and the file holds
    no record, whatever it held before. *)
Theorem load_after_save (rs : list Reminder) (w : World) :
  let w' := after (saveReminders rs ;; loadReminders)%js w in
  (fs_write w = WriteOk -> fs_read_ok w = true ->
   result (saveReminders rs ;; loadReminders)%js w = Normal rs)
  /\ (fs_write w = WriteRefused ->
      result (saveReminders rs ;; loadReminders)%js w = result loadReminders w)
  /\ (fs_write w = WriteTorn ->
      result (saveReminders rs ;; loadReminders)%js w = Normal []
      /\ records w' = []
      /\ exists err,
          console w'
          = (console w ++ [LogError saveErrorLine (FsError "ENOSPC");
                           LogError loadErrorLine err])%list).
Proof.
  cbv zeta. unfold result, after, bind. rewrite saveReminders_run.
  split; [|split]; intros Hw.
  - intros Hr. rewrite Hw. rewrite loadReminders_run. wsimpl. rewrite Hr.
    reflexivity.
  - rewrite Hw. rewrite !loadReminders_run. wsimpl. rewrite Hw.
    destruct (disk w) as [[|l]|]; destruct (fs_read_ok w); reflexivity.
  - rewrite Hw. rewrite loadReminders_run. wsimpl.
    destruct (fs_read_ok w); wsimpl; rewrite <- app_assoc;
      (split; [reflexivity|]); (split; [reflexivity|]); eexists; reflexivity.
Qed.

(** X2: a file that cannot be loaded is not left alone: when the load fails (the
    file is not JSON, or cannot be read) and writes succeed,
    [removeReminder] and [rescheduleReminders] replace the file by the empty
    collection, and start-up registers no job. *)
Theorem failed_load_overwrites_file (w : World) :
  disk w = Some Garbled \/ (disk w <> None /\ fs_read_ok w = false) ->
  fs_write_ok w = true ->
  (forall jobId, disk (after (removeReminder jobId) w) = Some (Json []))
  /\ disk (after rescheduleReminders w) = Some (Json [])
  /\ jobs (after rescheduleReminders w) = jobs w.
Proof.
  intros Hbad Hw. apply fs_write_ok_true in Hw.
  assert (L : forall cs, loadReminders (set_console cs w)
              = (Normal [],
                 set_console (cs ++ [LogError loadErrorLine
                                       (if fs_read_ok w then SyntaxError
                                        else FsError "EACCES")]) w)).
  { intros cs. rewrite loadReminders_run.
    destruct w as [c d rd wr g j o rp cs0]; wsimpl.
    destruct Hbad as [-> | [Hd ->]].
    - destruct rd; reflexivity.
    - destruct d as [x|]; [reflexivity | congruence]. }
  split; [|split].
  - intros jobId. unfold after. rewrite removeReminder_run. cbv zeta.
    rewrite L. rewrite saveReminders_run. wsimpl. rewrite Hw. reflexivity.
  - unfold after, rescheduleReminders. unfold bind at 1.
    replace w with (set_console (console w) w) at 1 by (destruct w; reflexivity).
    rewrite L. unfold bind at 1, new_Date at 1.
    unfold bind at 1, console_log at 1. unfold bind at 1.
    cbn [rescheduleLoop ret]. unfold bind at 1. rewrite saveReminders_run.
    wsimpl. rewrite Hw. reflexivity.
  - unfold after, rescheduleReminders. unfold bind at 1.
    replace w with (set_console (console w) w) at 1 by (destruct w; reflexivity).
    rewrite L. unfold bind at 1, new_Date at 1.
    unfold bind at 1, console_log at 1. unfold bind at 1.
    cbn [rescheduleLoop ret]. unfold bind at 1. rewrite saveReminders_run.
    wsimpl. rewrite Hw. reflexivity.
Qed.

(* ===================================================================== *)
(** * Further properties of start-up *)
(* ===================================================================== *)

(** The world after [rescheduleReminders], field by field, on a file that
    holds [rs] and can be read. *)
Lemma rescheduleReminders_fields (w : World) (rs : list Reminder) :
  disk w = Some (Json rs) ->
  fs_read_ok w = true ->
  let future := filter (isFuture (clock w)) rs in
  let w' := after rescheduleReminders w in
  clock w' = clock w /\ fs_read_ok w' = true /\ fs_write w' = fs_write w
  /\ disk w' = match fs_write w with
               | WriteOk => Some (Json future)
               | WriteRefused => disk w
               | WriteTorn => Some Garbled
               end
  /\ jobs w' = (jobs w ++ map jobOf future)%list
  /\ outbox w' = outbox w /\ replies w' = replies w.
Proof.
  intros Hd Hr future w'. subst future w'.
  remember (after rescheduleReminders w) as w' eqn:E.
  unfold after, rescheduleReminders in E.
  unfold bind at 1 in E. rewrite (loadReminders_readable w rs Hd Hr) in E.
  unfold bind at 1, new_Date at 1 in E.
  unfold bind at 1, console_log at 1 in E.
  unfold bind at 1 in E.
  match type of E with
  | context [rescheduleLoop _ _ _ ?w2] =>
      change (clock w) with (clock w2) in E;
      rewrite (rescheduleLoop_run rs [] w2) in E
  end.
  unfold bind at 1 in E. rewrite saveReminders_run in E.
  unfold console_log in E. rewrite app_nil_l in E.
  destruct w as [c d rd wr g j o rp cs]; cbn in Hd, Hr |- *. subst rd.
  destruct wr; wsimpl; subst w'; wsimpl; repeat split.
Qed.

Lemma rescheduleReminders_stores (w : World) (rs : list Reminder) :
  stores w rs ->
  let future := filter (isFuture (clock w)) rs in
  let w' := after rescheduleReminders w in
  clock w' = clock w /\ fs_read_ok w' = true /\ fs_write w' = fs_write w
  /\ disk w' = (if fs_write_ok w then Some (Json future) else disk w)
  /\ jobs w' = (jobs w ++ map jobOf future)%list
  /\ outbox w' = outbox w /\ replies w' = replies w.
Proof.
  intros (Hd & Hr & Ht).
  pose proof (rescheduleReminders_fields w rs Hd Hr) as F.
  cbv zeta in F |- *. unfold fs_write_ok.
  destruct (fs_write w); [exact F | exact F | congruence].
Qed.

(** X4: start-up run twice at the same instant: the second run leaves the file
    as the first left it, and registers a second job for every future
    record. *)
Theorem rescheduleReminders_twice (w : World) (rs : list Reminder) :
  stores w rs ->
  fs_write_ok w = true ->
  let future := filter (isFuture (clock w)) rs in
  let once := after rescheduleReminders w in
  let twice := after rescheduleReminders once in
  disk once = Some (Json future)
  /\ disk twice = disk once
  /\ jobs twice = (jobs w ++ map jobOf future ++ map jobOf future)%list.
Proof.
  intros H Hw future once twice.
  destruct (rescheduleReminders_stores w rs H)
    as (Hc & Hr & Hw1 & Hd & Hj & _).
  fold once in Hc, Hr, Hw1, Hd, Hj. fold future in Hd, Hj.
  rewrite Hw in Hd. pose proof (fs_write_ok_true w Hw) as Hw2.
  assert (H1 : stores once future)
    by (repeat split; try assumption; rewrite Hw1; congruence).
  destruct (rescheduleReminders_stores once future H1)
    as (_ & _ & _ & Hd2 & Hj2 & _).
  fold twice in Hd2, Hj2.
  unfold fs_write_ok in Hd2. rewrite Hw1, Hw2, Hc in Hd2. rewrite Hc, Hj in Hj2.
  unfold future in Hd2 at 1. unfold future in Hj2 at 2.
  rewrite filter_idem in Hd2, Hj2. fold future in Hd2, Hj2.
  split; [exact Hd|]. split; [congruence|].
  rewrite Hj2, <- app_assoc. reflexivity.
Qed.

(** X5: when no stored record is due yet, start-up leaves the file as it was
    and registers one job per record, in file order. *)
Theorem rescheduleReminders_all_future (w : World) (rs : list Reminder) :
  stores w rs ->
  (forall r, In r rs -> clock w < remindAt r) ->
  disk (after rescheduleReminders w) = disk w
  /\ jobs (after rescheduleReminders w) = (jobs w ++ map jobOf rs)%list.
Proof.
  intros H Hall.
  destruct (rescheduleReminders_stores w rs H) as (_ & _ & _ & Hd & Hj & _).
  cbv zeta in Hd, Hj.
  rewrite filter_keeps_all in Hd, Hj
    by (intros r Hr; apply Z.ltb_lt, Hall, Hr).
  split; [|exact Hj]. rewrite Hd. destruct H as [-> _].
  destruct (fs_write_ok w); reflexivity.
Qed.

(* ===================================================================== *)
(** * Further properties of commands *)
(* ===================================================================== *)

(** At a fixed offset from UTC, the fire time is before [now] exactly when
    the event is on the local day of [now] or earlier, or on the next day
    while it is past 09:00 local time. *)
Lemma fireTime_before_iff (LocalTZA : Z -> bool -> Z) (offset parsedDate now : Z) :
  fixedOffset LocalTZA offset ->
  fireTime LocalTZA parsedDate < now
  <-> JSDate.localDay LocalTZA parsedDate <= JSDate.localDay LocalTZA now
      \/ (JSDate.localDay LocalTZA parsedDate = JSDate.localDay LocalTZA now + 1
          /\ 9 * JSDate.msPerHour < JSDate.localTimeOfDay LocalTZA now).
Proof.
  intros H.
  rewrite (fireTime_closed LocalTZA parsedDate (fixedOffset_regular _ _ H)).
  unfold JSDate.localDay, JSDate.localTimeOfDay, JSDate.LocalTime, JSDate.UTC,
    JSDate.Day, JSDate.TimeWithinDay, JSDate.msPerDay, JSDate.msPerHour.
  rewrite !H.
  pose proof (Z.div_mod (now + offset) 86400000 ltac:(lia)) as E.
  pose proof (Z.mod_pos_bound (now + offset) 86400000 ltac:(lia)) as B.
  set (q := (now + offset) / 86400000) in *.
  set (m := (now + offset) mod 86400000) in *.
  set (e := (parsedDate + offset) / 86400000) in *.
  lia.
Qed.

Section MoreCommands.
Variable LocalTZA : Z -> bool -> Z.
Variable chrono_parse : Z -> string -> list ChronoResult.
Variable toLocaleString : Z -> string.
Variable toLocaleDateString : Z -> string.

Local Abbreviation handle :=
  (handleCommand LocalTZA chrono_parse toLocaleString toLocaleDateString).

(** The world after an accepted command, field by field. *)
Lemma handleCommand_accept_fields (w : World) (commandText chat : string)
      (first : ChronoResult) (rest : list ChronoResult) :
  JSString.toLowerCase commandText <> "list reminders" ->
  chrono_parse (clock w) commandText = first :: rest ->
  subjectOf (text first) commandText <> "" ->
  clock w <= fireTime LocalTZA (start_date first) ->
  let r := newReminder LocalTZA chat (subjectOf (text first) commandText)
                       (start_date first) in
  let w' := after (handle commandText chat) w in
  clock w' = clock w /\ fs_read_ok w' = fs_read_ok w
  /\ fs_write w' = fs_write w /\ gateway_ok w' = gateway_ok w
  /\ jobs w' = (jobs w ++ [jobOf r])%list
  /\ outbox w' = outbox w
  /\ replies w' = (replies w ++ [gotItReply toLocaleString (remindAt r)])%list
  /\ (forall rs, stores w rs -> fs_write_ok w = true ->
                 disk w' = Some (Json (rs ++ [r])))
  /\ (fs_write w = WriteRefused ->
      disk w' = disk w
      /\ In (LogError saveErrorLine (FsError "EACCES")) (console w'))
  /\ (fs_write w = WriteTorn ->
      disk w' = Some Garbled
      /\ In (LogError saveErrorLine (FsError "ENOSPC")) (console w')).
Proof.
  intros Hl Hp Hs Hf r w'.
  destruct (handleCommand_accept LocalTZA chrono_parse toLocaleString
              toLocaleDateString w commandText chat first rest Hl Hp Hs Hf)
    as (l & w2 & E & R).
  cbv zeta in E, R. subst w'.
  match type of R with
  | _ = (_, ?wf) =>
      assert (HR : after (handle commandText chat) w = wf)
        by (unfold after; rewrite R; reflexivity)
  end.
  rewrite HR. clear HR R.
  match type of E with
  | loadReminders ?w1 = _ =>
      pose proof (loadReminders_frame w1) as F1; cbv zeta in F1;
      unfold after in F1; rewrite E in F1; cbn [snd] in F1;
      pose proof (loadReminders_run w1) as L1; rewrite E in L1
  end.
  pose proof (saveReminders_frame (l ++ [r]) w2) as F2. cbv zeta in F2.
  destruct F1 as (C1 & R1 & W1 & G1 & J1 & O1 & P1).
  destruct F2 as (C2 & R2 & W2 & G2 & J2 & O2 & P2).
  wsimpl.
  fold r. rewrite C2, R2, W2, G2, J2, O2, P2, C1, R1, W1, G1, J1, O1, P1.
  repeat (split; [reflexivity|]).
  split; [|split].
  - intros rs (Hd & Hr & _) Hw. wsimpl. rewrite Hd, Hr in L1.
    injection L1 as -> ->.
    unfold after. rewrite saveReminders_run. wsimpl.
    rewrite (fs_write_ok_true w Hw). reflexivity.
  - intros Hw. wsimpl.
    unfold after. rewrite saveReminders_run. rewrite W1, Hw. cbn [snd].
    wsimpl. split; [|apply in_or_app; right; left; reflexivity].
    rewrite Hw in L1.
    destruct (disk w) as [[|rs]|] eqn:Hd; destruct (fs_read_ok w);
      injection L1 as -> ->; wsimpl; rewrite ?Hd; reflexivity.
  - intros Hw. wsimpl.
    unfold after. rewrite saveReminders_run. rewrite W1, Hw. cbn [snd].
    wsimpl. split; [reflexivity|apply in_or_app; right; left; reflexivity].
Qed.

Lemma listReminders_reply_once (w : World) (chat : string) :
  fileIsAbsentCorruptOrCollection w ->
  let w' := after (listReminders toLocaleString toLocaleDateString chat) w in
  result (listReminders toLocaleString toLocaleDateString chat) w = Normal tt
  /\ (exists reply, replies w' = (replies w ++ [reply])%list)
  /\ outbox w' = outbox w /\ clock w' = clock w.
Proof.
  intros Hfile. cbv zeta. unfold result, after, listReminders, bind.
  rewrite loadReminders_run.
  destruct w as [c d rd wr g j o rp cs]; wsimpl.
  destruct Hfile as [Hd | [Hd | [rs Hd]]]; cbn in Hd; subst d;
    destruct rd; destruct wr; wsimpl;
    cbn [filter List.length Nat.eqb];
    try (destruct (Nat.eqb _ 0));
    unfold message_reply; wsimpl;
    repeat split; eauto.
Qed.

(** Whatever the command, [handleCommand] completes, adds one reply, sends
    nothing and leaves the clock alone. *)
Lemma handleCommand_reply_once (w : World) (commandText chat : string) :
  fileIsAbsentCorruptOrCollection w ->
  let w' := after (handle commandText chat) w in
  result (handle commandText chat) w = Normal tt
  /\ (exists reply, replies w' = (replies w ++ [reply])%list)
  /\ outbox w' = outbox w /\ clock w' = clock w.
Proof.
  intros Hfile. cbv zeta.
  split; [apply (handleCommand_outcome LocalTZA chrono_parse toLocaleString
                   toLocaleDateString w commandText chat)|].
  destruct (string_dec (JSString.toLowerCase commandText) "list reminders")
    as [Hl | Hl].
  { unfold after. rewrite handleCommand_list by exact Hl.
    destruct (listReminders_reply_once w chat Hfile) as (_ & Hr & Ho & Hc).
    split; [exact Hr|]. split; [exact Ho | exact Hc]. }
  destruct (chrono_parse (clock w) commandText) as [|first rest] eqn:Hp.
  { destruct (handleCommand_no_date LocalTZA chrono_parse toLocaleString
                toLocaleDateString w commandText chat Hl Hp) as [reply E].
    unfold after. rewrite E. wsimpl. eauto. }
  destruct (string_dec (subjectOf (text first) commandText) "") as [Hs | Hs].
  { destruct (handleCommand_no_subject LocalTZA chrono_parse toLocaleString
                toLocaleDateString w commandText chat first rest Hl Hp Hs)
      as [reply E].
    unfold after. rewrite E. wsimpl. eauto. }
  destruct (Z.lt_ge_cases (fireTime LocalTZA (start_date first)) (clock w))
    as [Hf | Hf].
  { unfold after.
    rewrite (handleCommand_too_soon LocalTZA chrono_parse toLocaleString
               toLocaleDateString w commandText chat first rest Hl Hp Hs Hf).
    wsimpl. eauto. }
  destruct (handleCommand_accept_fields w commandText chat first rest
              Hl Hp Hs Hf) as (Hc & _ & _ & _ & _ & Ho & Hr & _).
  split; [eauto|]. split; [exact Ho | exact Hc].
Qed.

(** X6: [listReminders] on a file that is absent, is not JSON, or holds an
    array of reminder records: it does not throw, replies once, registers
    and sends nothing, and leaves the stored records as they were; a file
    that exists is left as it is.  When the file is absent, cannot be read
    or is not JSON, the reply is that there are no reminders. *)
Theorem listReminders_only_replies (w : World) (chat : string) :
  fileIsAbsentCorruptOrCollection w ->
  let w' := after (listReminders toLocaleString toLocaleDateString chat) w in
  result (listReminders toLocaleString toLocaleDateString chat) w = Normal tt
  /\ (exists reply, replies w' = (replies w ++ [reply])%list)
  /\ jobs w' = jobs w /\ outbox w' = outbox w
  /\ records w' = records w
  /\ (disk w <> None -> disk w' = disk w)
  /\ (disk w = None \/ disk w = Some Garbled \/ fs_read_ok w = false ->
      replies w' = (replies w ++ [noRemindersReply])%list).
Proof.
  intros Hfile. cbv zeta. unfold result, after, listReminders, bind.
  rewrite loadReminders_run.
  destruct w as [c d rd wr g j o rp cs]; wsimpl.
  destruct Hfile as [Hd | [Hd | [rs Hd]]]; cbn in Hd; subst d;
    destruct rd; destruct wr; wsimpl;
    cbn [filter List.length Nat.eqb];
    try (destruct (Nat.eqb _ 0));
    unfold message_reply; wsimpl;
    repeat split; eauto; try congruence;
    intros [H | [H | H]]; discriminate H.
Qed.

(** X7: on a file that is absent, is not JSON, or holds an array of reminder
    records, every command is answered: [handleCommand] does not throw, adds
    exactly one reply, and sends nothing to any chat. *)
Theorem handleCommand_replies_once (w : World) (commandText chat : string) :
  fileIsAbsentCorruptOrCollection w ->
  let w' := after (handle commandText chat) w in
  result (handle commandText chat) w = Normal tt
  /\ (exists reply, replies w' = (replies w ++ [reply])%list)
  /\ outbox w' = outbox w.
Proof.
  intros Hfile. cbv zeta.
  destruct (handleCommand_reply_once w commandText chat Hfile)
    as (R & Hrep & Hout & _).
  split; [exact R|]. split; [exact Hrep | exact Hout].
Qed.

(** X8: a command in which chrono-node finds no date, or in which nothing is
    left once the date is taken out, gets the matching guidance reply and
    changes nothing else. *)
Theorem handleCommand_guidance (w : World) (commandText chat : string) :
  JSString.toLowerCase commandText <> "list reminders" ->
  (chrono_parse (clock w) commandText = [] ->
   after (handle commandText chat) w
   = set_replies (replies w ++ [noDateReply]) w)
  /\ (forall first rest,
        chrono_parse (clock w) commandText = first :: rest ->
        subjectOf (text first) commandText = "" ->
        after (handle commandText chat) w
        = set_replies (replies w ++ [noSubjectReply]) w).
Proof.
  intros Hl. apply String.eqb_neq in Hl. split.
  - intros Hp. unfold after, handleCommand. rewrite Hl.
    unfold try_catch, bind at 1, new_Date at 1. rewrite Hp. reflexivity.
  - intros first rest Hp Hs. unfold after, handleCommand. rewrite Hl.
    unfold try_catch, bind at 1, new_Date at 1. rewrite Hp. cbv zeta.
    unfold subjectOf in Hs. rewrite Hs. reflexivity.
Qed.

(** X9: in a time zone at a fixed offset from UTC, when a command with a date
    and a subject is refused and when it is taken: it is refused when the
    event is on the current local day or earlier, or on the next day while
    it is past 09:00:00.000 local time; otherwise its job is registered and
    it is confirmed. *)
Theorem handleCommand_acceptance_window
        (w : World) (commandText chat : string)
        (first : ChronoResult) (rest : list ChronoResult) (offset : Z) :
  fixedOffset LocalTZA offset ->
  JSString.toLowerCase commandText <> "list reminders" ->
  chrono_parse (clock w) commandText = first :: rest ->
  subjectOf (text first) commandText <> "" ->
  let eventDay := JSDate.localDay LocalTZA (start_date first) in
  let today := JSDate.localDay LocalTZA (clock w) in
  let late :=
    eventDay <= today
    \/ (eventDay = today + 1
        /\ 9 * JSDate.msPerHour < JSDate.localTimeOfDay LocalTZA (clock w)) in
  let r := newReminder LocalTZA chat (subjectOf (text first) commandText)
                       (start_date first) in
  let w' := after (handle commandText chat) w in
  (late -> w' = set_replies (replies w ++ [tooSoonReply]) w)
  /\ (~ late ->
      jobs w' = (jobs w ++ [jobOf r])%list
      /\ replies w'
         = (replies w ++ [gotItReply toLocaleString (remindAt r)])%list).
Proof.
  intros Hz Hl Hp Hs eventDay today late r w'. subst eventDay today late w'.
  split.
  - intros Hlate. apply (fireTime_before_iff LocalTZA offset _ _ Hz) in Hlate.
    unfold after.
    rewrite (handleCommand_too_soon LocalTZA chrono_parse toLocaleString
               toLocaleDateString w commandText chat first rest Hl Hp Hs Hlate).
    reflexivity.
  - intros Hnot.
    assert (Hf : clock w <= fireTime LocalTZA (start_date first)).
    { apply Z.nlt_ge. intros Hlt. apply Hnot.
      apply (fireTime_before_iff LocalTZA offset _ _ Hz). exact Hlt. }
    destruct (handleCommand_accept_fields w commandText chat first rest
                Hl Hp Hs Hf) as (_ & _ & _ & _ & Hj & _ & Hr & _).
    split; [exact Hj | exact Hr].
Qed.

(** X10: an accepted command on a Store that holds [rs] and can be written: the
    file holds [rs] followed by the new record, whose subject is not empty,
    and the job registered is the job of that record, under the record's
    id. *)
Theorem handleCommand_stores_record
        (w : World) (rs : list Reminder) (commandText chat : string)
        (first : ChronoResult) (rest : list ChronoResult) :
  JSString.toLowerCase commandText <> "list reminders" ->
  chrono_parse (clock w) commandText = first :: rest ->
  subjectOf (text first) commandText <> "" ->
  clock w <= fireTime LocalTZA (start_date first) ->
  stores w rs ->
  fs_write_ok w = true ->
  let r := newReminder LocalTZA chat (subjectOf (text first) commandText)
                       (start_date first) in
  let w' := after (handle commandText chat) w in
  disk w' = Some (Json (rs ++ [r]))
  /\ jobs w' = (jobs w ++ [jobOf r])%list
  /\ job_name (jobOf r) = id r
  /\ chatId r = chat /\ originalSubject r <> ""
  /\ originalDate r = start_date first.
Proof.
  intros Hl Hp Hs Hf Hst Hw r w'.
  destruct (handleCommand_accept_fields w commandText chat first rest
              Hl Hp Hs Hf) as (_ & _ & _ & _ & Hj & _ & _ & Hd & _).
  split; [exact (Hd rs Hst Hw)|]. split; [exact Hj|].
  repeat split. exact Hs.
Qed.

(** X11: an accepted command whose write fails: the failure is only logged;
    the job is registered and the command is confirmed, although the record
    was not written.  When the write is refused the file is left as it was;
    when it fails after the file was opened, the file is left cut short and
    holds no record. *)
Theorem handleCommand_confirms_unsaved
        (w : World) (commandText chat : string)
        (first : ChronoResult) (rest : list ChronoResult) :
  JSString.toLowerCase commandText <> "list reminders" ->
  chrono_parse (clock w) commandText = first :: rest ->
  subjectOf (text first) commandText <> "" ->
  clock w <= fireTime LocalTZA (start_date first) ->
  fs_write w <> WriteOk ->
  let r := newReminder LocalTZA chat (subjectOf (text first) commandText)
                       (start_date first) in
  let w' := after (handle commandText chat) w in
  jobs w' = (jobs w ++ [jobOf r])%list
  /\ replies w'
     = (replies w ++ [gotItReply toLocaleString (remindAt r)])%list
  /\ (exists err, In (LogError saveErrorLine err) (console w'))
  /\ (fs_write w = WriteRefused -> disk w' = disk w)
  /\ (fs_write w = WriteTorn -> disk w' = Some Garbled /\ records w' = []).
Proof.
  intros Hl Hp Hs Hf Hw r w'.
  destruct (handleCommand_accept_fields w commandText chat first rest
              Hl Hp Hs Hf) as (_ & _ & _ & _ & Hj & _ & Hr & _ & Hrefused & Htorn).
  fold r w' in Hj, Hr, Hrefused, Htorn.
  split; [exact Hj|]. split; [exact Hr|]. split; [|split].
  - destruct (fs_write w) eqn:E; [congruence | |].
    + destruct (Hrefused eq_refl) as [_ Hc]. eauto.
    + destruct (Htorn eq_refl) as [_ Hc]. eauto.
  - intros E. apply (Hrefused E).
  - intros E. destruct (Htorn E) as [Hd _]. split; [exact Hd|].
    unfold records. rewrite Hd. reflexivity.
Qed.
End MoreCommands.

(* ===================================================================== *)
(** * Subjects and ids *)
(* ===================================================================== *)

Lemma whiteSpacePrefix_length (s s' : string) :
  JSString.whiteSpacePrefix s = Some s' ->
  (String.length s' < String.length s)%nat.
Proof.
  unfold JSString.whiteSpacePrefix.
  destruct s as [|c1 [|c2 [|c3 s3]]]; try discriminate;
    repeat match goal with
           | |- context [if ?b then _ else _] => destruct b
           end;
    intros [= <-]; cbn; lia.
Qed.

Lemma whiteSpacePrefix_app (a a' b : string) :
  JSString.whiteSpacePrefix a = Some a' ->
  JSString.whiteSpacePrefix (a ++ b) = Some (a' ++ b).
Proof.
  unfold JSString.whiteSpacePrefix.
  destruct a as [|c1 [|c2 [|c3 s3]]]; try discriminate; cbn [append];
    repeat match goal with
           | |- context [if ?b then _ else _] => destruct b
           end;
    intros [= <-]; reflexivity.
Qed.

Lemma trimStart_unfold (s : string) :
  JSString.trimStart s
  = match JSString.whiteSpacePrefix s with
    | Some s' => JSString.trimStart s'
    | None => s
    end.
Proof.
  destruct s as [|c1 s1]; [reflexivity|].
  unfold JSString.whiteSpacePrefix. cbn [JSString.trimStart].
  destruct (JSString.isWhiteSpace1 c1); [reflexivity|].
  destruct s1 as [|c2 s2]; [reflexivity|]. cbv beta iota.
  destruct (JSString.isWhiteSpace2 c1 c2); [reflexivity|].
  destruct s2 as [|c3 s3]; [reflexivity|]. cbv beta iota.
  destruct (JSString.isWhiteSpace3 c1 c2 c3); reflexivity.
Qed.

Lemma allWhiteSpace_unfold (s : string) :
  JSString.allWhiteSpace s
  = match s with
    | EmptyString => true
    | _ => match JSString.whiteSpacePrefix s with
           | Some s' => JSString.allWhiteSpace s'
           | None => false
           end
    end.
Proof.
  destruct s as [|c1 s1]; [reflexivity|].
  unfold JSString.whiteSpacePrefix. cbn [JSString.allWhiteSpace].
  destruct (JSString.isWhiteSpace1 c1); [reflexivity|].
  destruct s1 as [|c2 s2]; [reflexivity|]. cbv beta iota.
  destruct (JSString.isWhiteSpace2 c1 c2); [reflexivity|].
  destruct s2 as [|c3 s3]; [reflexivity|]. cbv beta iota.
  destruct (JSString.isWhiteSpace3 c1 c2 c3); reflexivity.
Qed.

Lemma string_length_ind (P : string -> Prop) :
  (forall s, (forall t, (String.length t < String.length s)%nat -> P t) -> P s) ->
  forall s, P s.
Proof.
  intros H s.
  assert (G : forall n t, (String.length t < n)%nat -> P t).
  { induction n as [|n IH]; intros t Ht; [lia|].
    apply H. intros u Hu. apply IH. lia. }
  apply (G (S (String.length s))). lia.
Qed.

(** White space followed by any text is white space from end to end exactly
    when that text is. *)
Lemma allWhiteSpace_app (a b : string) :
  JSString.allWhiteSpace a = true ->
  JSString.allWhiteSpace (a ++ b) = JSString.allWhiteSpace b.
Proof.
  induction a as [a IH] using string_length_ind.
  destruct a as [|c a]; [reflexivity|].
  rewrite (allWhiteSpace_unfold (String c a)).
  destruct (JSString.whiteSpacePrefix (String c a)) as [a'|] eqn:E; [|discriminate].
  intros Ha.
  rewrite (allWhiteSpace_unfold (String c a ++ b)).
  rewrite (whiteSpacePrefix_app _ _ b E). cbn [append].
  apply IH; [apply (whiteSpacePrefix_length _ _ E) | exact Ha].
Qed.

Lemma trimStart_head (s : string) :
  JSString.whiteSpacePrefix (JSString.trimStart s) = None.
Proof.
  induction s as [s IH] using string_length_ind.
  rewrite trimStart_unfold.
  destruct (JSString.whiteSpacePrefix s) as [s'|] eqn:E; [|exact E].
  apply IH, (whiteSpacePrefix_length _ _ E).
Qed.

(** [trimEnd] cuts white space off the end, and nothing else. *)
Lemma trimEnd_split (s : string) :
  exists r, s = JSString.trimEnd s ++ r /\ JSString.allWhiteSpace r = true.
Proof.
  induction s as [|c s IH]; [exists ""; split; reflexivity|].
  cbn [JSString.trimEnd].
  destruct (JSString.allWhiteSpace (String c s)) eqn:W.
  - exists (String c s). split; [reflexivity | exact W].
  - destruct IH as (r & E & Hr). exists r. cbn [append].
    split; [congruence | exact Hr].
Qed.

Lemma trimEnd_idem (s : string) :
  JSString.trimEnd (JSString.trimEnd s) = JSString.trimEnd s.
Proof.
  induction s as [|c s IH]; [reflexivity|].
  cbn [JSString.trimEnd].
  destruct (JSString.allWhiteSpace (String c s)) eqn:W; [reflexivity|].
  cbn [JSString.trimEnd]. rewrite IH.
  destruct (JSString.allWhiteSpace (String c (JSString.trimEnd s))) eqn:W';
    [|reflexivity].
  destruct (trimEnd_split s) as (r & E & Hr).
  pose proof (allWhiteSpace_app (String c (JSString.trimEnd s)) r W') as A.
  cbn [append] in A. rewrite <- E, Hr, W in A. discriminate A.
Qed.

Lemma trimEnd_head (s : string) :
  JSString.whiteSpacePrefix s = None ->
  JSString.whiteSpacePrefix (JSString.trimEnd s) = None.
Proof.
  intros H. destruct (trimEnd_split s) as (r & E & _).
  destruct (JSString.whiteSpacePrefix (JSString.trimEnd s)) as [t|] eqn:W;
    [|reflexivity].
  apply (whiteSpacePrefix_app _ _ r) in W. rewrite <- E, H in W. discriminate W.
Qed.

Lemma trimStart_trimEnd_trimStart (s : string) :
  JSString.trimStart (JSString.trimEnd (JSString.trimStart s))
  = JSString.trimEnd (JSString.trimStart s).
Proof.
  rewrite (trimStart_unfold (JSString.trimEnd (JSString.trimStart s))).
  rewrite (trimEnd_head _ (trimStart_head s)). reflexivity.
Qed.

Lemma trim_idem (s : string) : JSString.trim (JSString.trim s) = JSString.trim s.
Proof.
  unfold JSString.trim. rewrite trimStart_trimEnd_trimStart. apply trimEnd_idem.
Qed.

Lemma squeezeFrom_length (b : bool) (s : string) :
  (String.length (JSString.squeezeFrom b s) <= String.length s)%nat.
Proof.
  revert b. induction s as [|c s IH]; intros b; cbn; [lia|].
  destruct (Ascii.eqb c " "); [destruct b|]; cbn;
    try (specialize (IH true); lia); specialize (IH false); lia.
Qed.

Lemma squeezeFrom_fixed_true_false (s : string) :
  JSString.squeezeFrom true s = s -> JSString.squeezeFrom false s = s.
Proof.
  destruct s as [|c s]; [reflexivity|]. cbn [JSString.squeezeFrom].
  destruct (Ascii.eqb c " "); [|auto].
  intros H. pose proof (squeezeFrom_length true s) as L.
  rewrite H in L. cbn in L. lia.
Qed.

Lemma squeezeFrom_fixed_tail (c : ascii) (s : string) :
  JSString.squeezeFrom false (String c s) = String c s ->
  JSString.squeezeFrom false s = s.
Proof.
  cbn [JSString.squeezeFrom]. destruct (Ascii.eqb c " "); intros [= H]; auto.
  apply squeezeFrom_fixed_true_false, H.
Qed.

Lemma squeezeFrom_idem (b : bool) (s : string) :
  JSString.squeezeFrom b (JSString.squeezeFrom b s) = JSString.squeezeFrom b s.
Proof.
  revert b. induction s as [|c s IH]; intros b; [reflexivity|].
  cbn [JSString.squeezeFrom].
  destruct (Ascii.eqb c " ") eqn:E; [destruct b|];
    cbn [JSString.squeezeFrom]; rewrite ?E, ?IH; reflexivity.
Qed.

Lemma squeeze_whiteSpacePrefix (s s' : string) :
  JSString.whiteSpacePrefix s = Some s' ->
  JSString.squeezeFrom false s = s ->
  JSString.squeezeFrom false s' = s'.
Proof.
  unfold JSString.whiteSpacePrefix.
  destruct s as [|c1 [|c2 [|c3 s3]]]; try discriminate;
    repeat match goal with
           | |- context [if ?b then _ else _] => destruct b
           end;
    intros [= <-] H; eauto 4 using squeezeFrom_fixed_tail.
Qed.

Lemma squeeze_trimStart (s : string) :
  JSString.squeezeFrom false s = s ->
  JSString.squeezeFrom false (JSString.trimStart s) = JSString.trimStart s.
Proof.
  induction s as [s IH] using string_length_ind. intros H.
  rewrite trimStart_unfold.
  destruct (JSString.whiteSpacePrefix s) as [s'|] eqn:E; [|exact H].
  apply IH; [apply (whiteSpacePrefix_length _ _ E)|].
  apply (squeeze_whiteSpacePrefix _ _ E H).
Qed.

Lemma squeeze_prefix (b : bool) (p r : string) :
  JSString.squeezeFrom b (p ++ r) = p ++ r ->
  JSString.squeezeFrom b p = p.
Proof.
  revert b. induction p as [|c p IH]; intros b H; [reflexivity|].
  cbn [append JSString.squeezeFrom] in H |- *.
  destruct (Ascii.eqb c " ").
  - destruct b.
    + pose proof (squeezeFrom_length true (p ++ r)) as L. rewrite H in L.
      cbn in L. lia.
    + injection H as H. rewrite (IH true H). reflexivity.
  - injection H as H. rewrite (IH false H). reflexivity.
Qed.

Lemma squeeze_trimEnd (b : bool) (s : string) :
  JSString.squeezeFrom b s = s ->
  JSString.squeezeFrom b (JSString.trimEnd s) = JSString.trimEnd s.
Proof.
  intros H. destruct (trimEnd_split s) as (r & E & _).
  apply (squeeze_prefix b _ r). rewrite <- E. exact H.
Qed.

(** The subject taken from a command has no white space at either end and
    no two spaces in a row. *)
Lemma subjectOf_normal (dateText commandText : string) :
  JSString.trim (subjectOf dateText commandText) = subjectOf dateText commandText
  /\ JSString.squeezeSpaces (subjectOf dateText commandText)
     = subjectOf dateText commandText.
Proof.
  unfold subjectOf. split; [apply trim_idem|].
  unfold JSString.trim, JSString.squeezeSpaces.
  apply squeeze_trimEnd, squeeze_trimStart, squeezeFrom_idem.
Qed.

(** Decimal numerals: different numbers print differently, and no numeral
    contains an underscore. *)
Lemma ofZ_inj (a b : Z) : JSString.ofZ a = JSString.ofZ b -> a = b.
Proof.
  unfold JSString.ofZ. intros H.
  apply DecimalZ.to_int_inj.
  assert (N : forall z, NilZero.int_of_string (NilZero.string_of_int (Z.to_int z))
                        = Some (Z.to_int z)).
  { intros z. apply NilZero.isi.
    - destruct z as [|p|p]; cbn; try discriminate.
      intros [= E]. revert E. apply DecimalPos.Unsigned.to_uint_nonnil.
    - destruct z as [|p|p]; cbn; try discriminate.
      intros [= E]. revert E. apply DecimalPos.Unsigned.to_uint_nonnil. }
  pose proof (N a) as Na. rewrite H, N in Na. congruence.
Qed.

Lemma string_of_uint_no_underscore (d : Decimal.uint) (a b : string) :
  NilEmpty.string_of_uint d <> a ++ String "_" b.
Proof.
  revert a. induction d; intros a H; destruct a as [|c a]; cbn in H;
    try discriminate; injection H as _ H; eapply IHd; exact H.
Qed.

Lemma ofZ_no_underscore (z : Z) (a b : string) :
  JSString.ofZ z <> a ++ String "_" b.
Proof.
  unfold JSString.ofZ. intros H.
  assert (U : forall d x y, NilZero.string_of_uint d <> x ++ String "_" y).
  { intros d x y E. destruct d; try (eapply string_of_uint_no_underscore; exact E).
    destruct x as [|c [|c' x]]; cbn in E; discriminate. }
  destruct (Z.to_int z) as [d | d]; cbn in H.
  - eapply U; exact H.
  - destruct a as [|c a]; cbn in H; [discriminate|].
    injection H as _ H. eapply U; exact H.
Qed.

(** Text of the form [chat ++ "_" ++ numeral] splits in one way only. *)
Lemma chat_numeral_inj (c1 c2 : string) (t1 t2 : Z) :
  c1 ++ "_" ++ JSString.ofZ t1 = c2 ++ "_" ++ JSString.ofZ t2 ->
  c1 = c2 /\ t1 = t2.
Proof.
  revert c2. induction c1 as [|x c1 IH]; intros c2 H; destruct c2 as [|y c2].
  - cbn in H. injection H as H. split; [reflexivity | apply ofZ_inj, H].
  - cbn in H. injection H as _ H. exfalso.
    eapply ofZ_no_underscore. exact H.
  - cbn in H. injection H as _ H. exfalso.
    eapply ofZ_no_underscore. symmetry. exact H.
  - cbn in H. injection H as -> H. destruct (IH c2 H) as [-> ->].
    split; reflexivity.
Qed.

Lemma scheduleNewReminder_result (chat message : string) (date : Z) (w : World) :
  result (scheduleNewReminder chat message date) w
  = Normal ("reminder_" ++ chat ++ "_" ++ JSString.ofZ date).
Proof.
  unfold result, scheduleNewReminder, bind, schedule_scheduleJob, console_log, ret.
  cbn [job_date]. destruct (clock w <=? date); reflexivity.
Qed.

(** X12: the id that [scheduleNewReminder] returns tells the chat and the fire
    time apart, and nothing else: two calls return the same id exactly when
    they are for the same chat and the same instant, whatever the message
    and the state. *)
Theorem scheduleNewReminder_id (c1 c2 m1 m2 : string) (d1 d2 : Z) (w1 w2 : World) :
  result (scheduleNewReminder c1 m1 d1) w1 = result (scheduleNewReminder c2 m2 d2) w2
  <-> c1 = c2 /\ d1 = d2.
Proof.
  rewrite !scheduleNewReminder_result. unfold JSDate.getTime. split.
  - intros [= H]. apply chat_numeral_inj. exact H.
  - intros [-> ->]. reflexivity.
Qed.


(* ===================================================================== *)
(** * From the command to the notification *)
(* ===================================================================== *)

Lemma after_seq {A B} (c : M A) (k : M B) (w : World) :
  returns c w -> after (c ;; k)%js w = after k (after c w).
Proof.
  intros [a R]. unfold result in R. unfold after, bind.
  destruct (c w) as [[a'|e] w1]; [reflexivity | discriminate].
Qed.

(** The callback of a job on a Store that holds [rs], when the send and the
    write succeed. *)
Lemma callback_sent (j : Job) (w : World) (rs : list Reminder) :
  gateway_ok w = true ->
  stores w rs ->
  fs_write_ok w = true ->
  records (after (callback j) w) = filter (fun r => negb (hasId (job_name j) r)) rs
  /\ outbox (after (callback j) w)
     = (outbox w ++ [(job_chatId j, job_message j)])%list.
Proof.
  intros G (Hd & Hr & _) Hw. unfold callback, after.
  rewrite reminderJob_run. cbv zeta. rewrite G.
  rewrite removeReminder_run. cbv zeta.
  load_readable rs Hd Hr.
  rewrite saveReminders_run. wsimpl. rewrite (fs_write_ok_true w Hw).
  split; reflexivity.
Qed.

Lemma jobOf_date (a b : Reminder) : jobOf a = jobOf b -> remindAt a = remindAt b.
Proof.
  intros H. apply (f_equal job_date) in H. exact H.
Qed.

Lemma filter_app_same_id (jobId : string) (rs extra : list Reminder) :
  (forall r, In r extra -> id r = jobId) ->
  filter (fun r => negb (hasId jobId r)) (rs ++ extra)
  = filter (fun r => negb (hasId jobId r)) rs.
Proof.
  intros H. rewrite filter_app.
  replace (filter _ extra) with (@nil Reminder); [apply app_nil_r|].
  symmetry. induction extra as [|r extra IH]; [reflexivity|].
  cbn [filter]. unfold hasId at 1.
  rewrite (H r (or_introl eq_refl)), String.eqb_refl. cbn [negb].
  apply IH. intros r' Hr'. apply H. right. exact Hr'.
Qed.

Section Lifecycle.
Variable LocalTZA : Z -> bool -> Z.
Variable chrono_parse : Z -> string -> list ChronoResult.
Variable toLocaleString : Z -> string.
Variable toLocaleDateString : Z -> string.

Local Abbreviation handle :=
  (handleCommand LocalTZA chrono_parse toLocaleString toLocaleDateString).

(** X13: the shape of every record that a command adds to the Store: its id is
    derived from its chat and its fire time, its text is the notification
    template around its subject, and the subject has no white space at
    either end and no two spaces in a row. *)
Theorem handleCommand_record_shape
        (w : World) (commandText chat : string) (r : Reminder) :
  In r (records (after (handle commandText chat) w)) ->
  ~ In r (records w) ->
  chatId r = chat
  /\ id r = "reminder_" ++ chatId r ++ "_" ++ JSString.ofZ (remindAt r)
  /\ reminderMessage r = reminderText (originalSubject r)
  /\ JSString.trim (originalSubject r) = originalSubject r
  /\ JSString.squeezeSpaces (originalSubject r) = originalSubject r.
Proof.
  intros Hin Hnew.
  destruct (handleCommand_outcome LocalTZA chrono_parse toLocaleString
              toLocaleDateString w commandText chat)
    as [_ [[_ Hr] | (first & rest & _ & _ & _ & Hr)]];
    apply Hr in Hin; [contradiction|].
  apply in_app_or in Hin as [Hin | [<- | []]]; [contradiction|].
  unfold newReminder.
  cbn [id chatId reminderMessage remindAt originalSubject].
  repeat (split; [reflexivity|]). apply subjectOf_normal.
Qed.

(** X14: from the command to the notification: an accepted command on a Store
    that holds [rs] registers the job of its record; whenever that job's
    callback later runs on the file as the command left it, with the send
    and the write succeeding, it delivers the notification text of the
    subject to the chat of the command, and leaves in the file the records
    of [rs] whose id is not that of the new record; when no record of [rs]
    has that id, the file holds [rs] again. *)
Theorem create_then_fire
        (w : World) (rs : list Reminder) (commandText chat : string)
        (first : ChronoResult) (rest : list ChronoResult) :
  JSString.toLowerCase commandText <> "list reminders" ->
  chrono_parse (clock w) commandText = first :: rest ->
  subjectOf (text first) commandText <> "" ->
  clock w <= fireTime LocalTZA (start_date first) ->
  stores w rs ->
  fs_write_ok w = true ->
  let r := newReminder LocalTZA chat (subjectOf (text first) commandText)
                       (start_date first) in
  let w1 := after (handle commandText chat) w in
  In (jobOf r) (jobs w1)
  /\ forall v,
      disk v = disk w1 -> fs_read_ok v = true -> fs_write_ok v = true ->
      gateway_ok v = true ->
      let v' := after (callback (jobOf r)) v in
      outbox v'
      = (outbox v ++ [(chat, reminderText (subjectOf (text first) commandText))])%list
      /\ records v' = filter (fun r' => negb (hasId (id r) r')) rs
      /\ ((forall r', In r' rs -> id r' <> id r) -> records v' = rs).
Proof.
  intros Hl Hp Hs Hf Hst Hw r w1.
  destruct (handleCommand_accept_fields LocalTZA chrono_parse toLocaleString
              toLocaleDateString w commandText chat first rest Hl Hp Hs Hf)
    as (_ & _ & _ & _ & Hj & _ & _ & Hd & _).
  fold r w1 in Hj, Hd. specialize (Hd rs Hst Hw).
  split; [rewrite Hj; apply in_or_app; right; left; reflexivity|].
  intros v Hdv Hrv Hwv Gv v'.
  assert (Hstv : stores v (rs ++ [r])%list)
    by (repeat split; try congruence; rewrite (fs_write_ok_true v Hwv); discriminate).
  destruct (callback_sent (jobOf r) v (rs ++ [r])%list Gv Hstv Hwv) as [Hrec Hout].
  fold v' in Hrec, Hout.
  assert (E : records v' = filter (fun r' => negb (hasId (id r) r')) rs).
  { rewrite Hrec. apply filter_app_same_id.
    intros r' [<- | []]. reflexivity. }
  split; [exact Hout|]. split; [exact E|].
  intros Hfresh. rewrite E. apply filter_keeps_all.
  intros r' Hin. apply negb_true_iff, String.eqb_neq. apply Hfresh, Hin.
Qed.

(** X15: on a regular wall clock, two commands for the same chat whose events
    fall on the same local day get the same id, whatever their subjects:
    both records are stored, and the first callback to run with success
    removes the two of them. *)
Theorem same_day_commands_share_an_id
        (w : World) (rs : list Reminder) (command1 command2 chat : string)
        (first1 first2 : ChronoResult) (rest1 rest2 : list ChronoResult) :
  wallClockRegular LocalTZA ->
  JSString.toLowerCase command1 <> "list reminders" ->
  JSString.toLowerCase command2 <> "list reminders" ->
  chrono_parse (clock w) command1 = first1 :: rest1 ->
  chrono_parse (clock w) command2 = first2 :: rest2 ->
  subjectOf (text first1) command1 <> "" ->
  subjectOf (text first2) command2 <> "" ->
  clock w <= fireTime LocalTZA (start_date first1) ->
  JSDate.localDay LocalTZA (start_date first1)
  = JSDate.localDay LocalTZA (start_date first2) ->
  stores w rs ->
  fs_write_ok w = true ->
  let r1 := newReminder LocalTZA chat (subjectOf (text first1) command1)
                        (start_date first1) in
  let r2 := newReminder LocalTZA chat (subjectOf (text first2) command2)
                        (start_date first2) in
  let w2 := after (handle command1 chat ;; handle command2 chat)%js w in
  id r1 = id r2
  /\ disk w2 = Some (Json (rs ++ [r1; r2]))
  /\ forall v,
      disk v = disk w2 -> fs_read_ok v = true -> fs_write_ok v = true ->
      gateway_ok v = true ->
      records (after (callback (jobOf r1)) v)
      = filter (fun r' => negb (hasId (id r1) r')) rs.
Proof.
  intros Hz Hl1 Hl2 Hp1 Hp2 Hs1 Hs2 Hf1 Hday Hst Hw r1 r2 w2.
  assert (Hfire : fireTime LocalTZA (start_date first1)
                  = fireTime LocalTZA (start_date first2)).
  { rewrite !(fireTime_closed LocalTZA _ Hz), Hday. reflexivity. }
  assert (Hid : id r1 = id r2).
  { unfold r1, r2, newReminder. cbn [id]. rewrite Hfire. reflexivity. }
  destruct (handleCommand_accept_fields LocalTZA chrono_parse toLocaleString
              toLocaleDateString w command1 chat first1 rest1 Hl1 Hp1 Hs1 Hf1)
    as (Hc & Hr1 & Hw1 & _ & _ & _ & _ & Hd1 & _).
  fold r1 in Hd1. specialize (Hd1 rs Hst Hw).
  set (w1 := after (handle command1 chat) w) in *.
  pose proof (fs_write_ok_true w Hw) as Hwm.
  assert (Hst1 : stores w1 (rs ++ [r1])%list).
  { split; [exact Hd1|]. split; [rewrite Hr1; apply Hst|].
    rewrite Hw1, Hwm. discriminate. }
  assert (Hw1' : fs_write_ok w1 = true)
    by (unfold fs_write_ok; rewrite Hw1, Hwm; reflexivity).
  assert (Hp2' : chrono_parse (clock w1) command2 = first2 :: rest2)
    by (rewrite Hc; exact Hp2).
  assert (Hf2 : clock w1 <= fireTime LocalTZA (start_date first2))
    by (rewrite Hc, <- Hfire; exact Hf1).
  destruct (handleCommand_accept_fields LocalTZA chrono_parse toLocaleString
              toLocaleDateString w1 command2 chat first2 rest2 Hl2 Hp2' Hs2 Hf2)
    as (_ & _ & _ & _ & _ & _ & _ & Hd2 & _).
  fold r2 in Hd2.
  specialize (Hd2 (rs ++ [r1])%list Hst1 Hw1').
  assert (E2 : w2 = after (handle command2 chat) w1).
  { unfold w2, w1. apply after_seq. exists tt.
    apply (handleCommand_outcome LocalTZA chrono_parse toLocaleString
             toLocaleDateString w command1 chat). }
  rewrite <- E2 in Hd2. rewrite <- app_assoc in Hd2. cbn [app] in Hd2.
  split; [exact Hid|]. split; [exact Hd2|].
  intros v Hdv Hrv Hwv Gv.
  assert (Hstv : stores v (rs ++ [r1; r2])%list)
    by (repeat split; try congruence; rewrite (fs_write_ok_true v Hwv); discriminate).
  destruct (callback_sent (jobOf r1) v (rs ++ [r1; r2])%list Gv Hstv Hwv) as [Hrec _].
  rewrite Hrec. apply filter_app_same_id.
  intros r' [<- | [<- | []]]; [reflexivity | symmetry; exact Hid].
Qed.

(** X16: a restart after an accepted command: while the fire time is still ahead,
    start-up registers the job of the record again, the same job as the
    command registered, and keeps the record (unless the write-back of
    start-up is cut short); once the fire time is reached, start-up drops
    the record, registers no job for it and sends nothing. *)
Theorem restart_after_create
        (w : World) (rs : list Reminder) (commandText chat : string)
        (first : ChronoResult) (rest : list ChronoResult) :
  JSString.toLowerCase commandText <> "list reminders" ->
  chrono_parse (clock w) commandText = first :: rest ->
  subjectOf (text first) commandText <> "" ->
  clock w <= fireTime LocalTZA (start_date first) ->
  stores w rs ->
  fs_write_ok w = true ->
  let r := newReminder LocalTZA chat (subjectOf (text first) commandText)
                       (start_date first) in
  let w1 := after (handle commandText chat) w in
  forall v,
    disk v = disk w1 -> fs_read_ok v = true ->
    let v' := after rescheduleReminders v in
    In (jobOf r) (jobs w1)
    /\ (clock v < remindAt r ->
        In (jobOf r) (jobs v')
        /\ (fs_write v <> WriteTorn -> In r (records v')))
    /\ (remindAt r <= clock v ->
        fs_write_ok v = true ->
        ~ In r (records v')
        /\ (~ In (jobOf r) (jobs v) -> ~ In (jobOf r) (jobs v'))
        /\ outbox v' = outbox v).
Proof.
  intros Hl Hp Hs Hf Hst Hw r w1 v Hdv Hrv v'.
  destruct (handleCommand_accept_fields LocalTZA chrono_parse toLocaleString
              toLocaleDateString w commandText chat first rest Hl Hp Hs Hf)
    as (_ & _ & _ & _ & Hj & _ & _ & Hd & _).
  fold r w1 in Hj, Hd. specialize (Hd rs Hst Hw).
  assert (Hdv' : disk v = Some (Json (rs ++ [r])%list)) by congruence.
  destruct (rescheduleReminders_fields v (rs ++ [r])%list Hdv' Hrv)
    as (_ & _ & _ & Hd' & Hj' & Ho' & _).
  cbv zeta in Hd', Hj'. fold v' in Hd', Hj', Ho'.
  split; [rewrite Hj; apply in_or_app; right; left; reflexivity|].
  split.
  - intros Hlt.
    assert (Hfut : In r (filter (isFuture (clock v)) (rs ++ [r]))).
    { apply filter_In. split; [apply in_or_app; right; left; reflexivity|].
      apply Z.ltb_lt. exact Hlt. }
    split.
    + rewrite Hj'. apply in_or_app. right. apply in_map. exact Hfut.
    + intros Ht. unfold records. rewrite Hd'.
      destruct (fs_write v); [exact Hfut | | congruence].
      rewrite Hdv'. apply in_or_app. right. left. reflexivity.
  - intros Hge Hwv. rewrite (fs_write_ok_true v Hwv) in Hd'.
    split; [|split; [|exact Ho']].
    + unfold records. rewrite Hd'. intros Hin.
      apply filter_In in Hin as [_ Hin]. apply Z.ltb_lt in Hin. lia.
    + intros Hno Hin. rewrite Hj' in Hin.
      apply in_app_or in Hin as [Hin | Hin]; [contradiction|].
      apply in_map_iff in Hin as (r' & Heq & Hin).
      apply filter_In in Hin as [_ Hin]. apply Z.ltb_lt in Hin.
      apply jobOf_date in Heq. lia.
Qed.

(** X17: messages, on a file that is absent, is not JSON, or holds an array of
    reminder records: a group message that starts with the tag is answered,
    with exactly one reply, and nothing is sent; any other message changes
    nothing at all. *)
Theorem onMessage_answers_commands_only
        (w : World) (body chatName chat : string) (isGroup : bool) :
  fileIsAbsentCorruptOrCollection w ->
  let on := onMessage LocalTZA chrono_parse toLocaleString toLocaleDateString in
  let w' := after (on body isGroup chatName chat) w in
  result (on body isGroup chatName chat) w = Normal tt
  /\ (JSString.startsWith body BOT_TAG = true -> isGroup = true ->
      (exists reply, replies w' = (replies w ++ [reply])%list)
      /\ outbox w' = outbox w)
  /\ (JSString.startsWith body BOT_TAG = false \/ isGroup = false -> w' = w).
Proof.
  intros Hfile. cbv zeta. unfold onMessage.
  destruct (JSString.startsWith body BOT_TAG); destruct isGroup;
    try (split; [reflexivity|]; split; [intros; discriminate | reflexivity]).
  unfold result, after, bind at 1 3 4, console_log.
  match goal with
  | |- context [handleCommand _ _ _ _ ?c _ ?w1] =>
      destruct (handleCommand_reply_once LocalTZA chrono_parse toLocaleString
                  toLocaleDateString w1 c chat) as (R & Hrep & Hout & _);
        [exact Hfile|]
  end.
  unfold result, after in R, Hrep, Hout. wsimpl.
  split; [exact R|]. split; [intros _ _; split; assumption|].
  intros [H | H]; discriminate.
Qed.
End Lifecycle.

(* ===================================================================== *)
(** * Concrete runs of the further properties *)
(* ===================================================================== *)

Lemma load_after_save_witness :
  let torn := mkWorld 0 (Some (Json [feesReminder])) true WriteTorn true [] [] [] [] in
  result (saveReminders [quizReminder] ;; loadReminders)%js (worldAt 0 [feesReminder])
  = Normal [quizReminder]
  /\ result (saveReminders [feesReminder; quizReminder] ;; loadReminders)%js torn
     = Normal []
  /\ records (after (saveReminders [feesReminder; quizReminder] ;; loadReminders)%js
                    torn) = [].
Proof.
  cbv zeta. split.
  - apply (proj1 (load_after_save [quizReminder] (worldAt 0 [feesReminder])));
      reflexivity.
  - destruct (proj2 (proj2 (load_after_save
                              [feesReminder; quizReminder]
                              (mkWorld 0 (Some (Json [feesReminder])) true WriteTorn
                                       true [] [] [] [])))
                    eq_refl) as (Hres & Hrec & _).
    split; [exact Hres | exact Hrec].
Defined.

Lemma failed_load_overwrites_file_witness :
  let w := mkWorld 0 (Some Garbled) true WriteOk true [] [] [] [] in
  disk (after (removeReminder "reminder_g1_0") w) = Some (Json [])
  /\ disk (after rescheduleReminders w) = Some (Json []).
Proof.
  cbv zeta.
  destruct (failed_load_overwrites_file
              (mkWorld 0 (Some Garbled) true WriteOk true [] [] [] [])
              (or_introl eq_refl) eq_refl) as (Hrem & Hres & _).
  split; [apply Hrem | exact Hres].
Defined.

Lemma removeReminder_idempotent_witness :
  let w := worldAt 0 [quizReminder; feesReminder; quizReminder] in
  disk (after (removeReminder (id quizReminder) ;;
               removeReminder (id quizReminder))%js w)
  = disk (after (removeReminder (id quizReminder)) w).
Proof.
  cbv zeta.
  apply (removeReminder_idempotent
           (id quizReminder)
           (worldAt 0 [quizReminder; feesReminder; quizReminder])
           [quizReminder; feesReminder; quizReminder]).
  apply worldAt_stores.
Defined.

Lemma rescheduleReminders_twice_witness :
  let w := worldAt 200000000 [quizReminder; feesReminder; tripReminder] in
  let once := after rescheduleReminders w in
  let twice := after rescheduleReminders once in
  disk twice = disk once
  /\ jobs twice = [jobOf feesReminder; jobOf feesReminder].
Proof.
  cbv zeta.
  destruct (rescheduleReminders_twice
              (worldAt 200000000 [quizReminder; feesReminder; tripReminder])
              [quizReminder; feesReminder; tripReminder]
              (worldAt_stores _ _) eq_refl)
    as (_ & Hd & Hj).
  split; [exact Hd | exact Hj].
Defined.

Lemma rescheduleReminders_all_future_witness :
  let w := worldAt 0 [feesReminder; quizReminder] in
  disk (after rescheduleReminders w) = disk w
  /\ jobs (after rescheduleReminders w) = [jobOf feesReminder; jobOf quizReminder].
Proof.
  cbv zeta.
  apply (rescheduleReminders_all_future
           (worldAt 0 [feesReminder; quizReminder]) [feesReminder; quizReminder]).
  - apply worldAt_stores.
  - intros r [<- | [<- | []]]; vm_compute; reflexivity.
Defined.

Lemma listReminders_only_replies_witness :
  let w := mkWorld 0 None true WriteOk true [] [] [] [] in
  replies (after (listReminders plainDate plainDate "g1") w) = [noRemindersReply].
Proof.
  cbv zeta.
  destruct (listReminders_only_replies
              plainDate plainDate
              (mkWorld 0 None true WriteOk true [] [] [] []) "g1"
              (or_introl eq_refl))
    as (_ & _ & _ & _ & _ & _ & Hnone).
  apply Hnone. left. reflexivity.
Defined.

Lemma handleCommand_replies_once_witness :
  let w := mkWorld 0 (Some Garbled) true WriteOk true [] [] [] [] in
  exists reply,
    replies (after (handleCommand utcZone (chrono_finds 432000000 "next Monday")
                                  plainDate plainDate "List Reminders" "g1") w)
    = [reply].
Proof.
  cbv zeta.
  destruct (handleCommand_replies_once
              utcZone (chrono_finds 432000000 "next Monday") plainDate plainDate
              (mkWorld 0 (Some Garbled) true WriteOk true [] [] [] [])
              "List Reminders" "g1" (or_intror (or_introl eq_refl)))
    as (_ & Hrep & _).
  exact Hrep.
Defined.

Lemma handleCommand_guidance_witness :
  after (handleCommand utcZone (fun _ _ => []) plainDate plainDate "hello there" "g1")
        (worldAt 0 [feesReminder])
  = set_replies [noDateReply] (worldAt 0 [feesReminder])
  /\ after (handleCommand utcZone (chrono_finds 432000000 "next Monday")
                          plainDate plainDate " next Monday " "g1")
           (worldAt 0 [feesReminder])
     = set_replies [noSubjectReply] (worldAt 0 [feesReminder]).
Proof.
  split.
  - apply (proj1 (handleCommand_guidance
                    utcZone (fun _ _ => []) plainDate plainDate
                    (worldAt 0 [feesReminder]) "hello there" "g1"
                    ltac:(vm_compute; discriminate))).
    reflexivity.
  - apply (proj2 (handleCommand_guidance
                    utcZone (chrono_finds 432000000 "next Monday") plainDate plainDate
                    (worldAt 0 [feesReminder]) " next Monday " "g1"
                    ltac:(vm_compute; discriminate))
                 (mkChronoResult 432000000 "next Monday") []);
      reflexivity.
Defined.

(** The event is on 1970-01-03; at 09:00:00.001 on the day before, the
    command is refused. *)
Lemma handleCommand_acceptance_window_witness :
  let w := worldAt (day1_9am + 1) [] in
  after (handleCommand utcZone (chrono_finds 172800000 "tomorrow")
                       plainDate plainDate "tomorrow quiz" "g1") w
  = set_replies [tooSoonReply] w.
Proof.
  cbv zeta.
  apply (proj1 (handleCommand_acceptance_window
                  utcZone (chrono_finds 172800000 "tomorrow") plainDate plainDate
                  (worldAt (day1_9am + 1) []) "tomorrow quiz" "g1"
                  (mkChronoResult 172800000 "tomorrow") [] 0
                  ltac:(intros t b; reflexivity)
                  ltac:(vm_compute; discriminate) eq_refl
                  ltac:(vm_compute; discriminate))).
  right. split; vm_compute; reflexivity.
Defined.

Lemma handleCommand_stores_record_witness :
  let r := newReminder utcZone "g1" "exam fees" 432000000 in
  let w' := after (handleCommand utcZone (chrono_finds 432000000 "next Monday")
                                 plainDate plainDate "next Monday exam fees" "g1")
                  (worldAt 0 [quizReminder]) in
  disk w' = Some (Json [quizReminder; r]) /\ jobs w' = [jobOf r].
Proof.
  cbv zeta.
  destruct (handleCommand_stores_record
              utcZone (chrono_finds 432000000 "next Monday") plainDate plainDate
              (worldAt 0 [quizReminder]) [quizReminder]
              "next Monday exam fees" "g1"
              (mkChronoResult 432000000 "next Monday") []
              ltac:(vm_compute; discriminate) eq_refl
              ltac:(vm_compute; discriminate)
              ltac:(vm_compute; discriminate)
              (worldAt_stores _ _) eq_refl)
    as (Hd & Hj & _).
  split; [exact Hd | exact Hj].
Defined.

Lemma handleCommand_confirms_unsaved_witness :
  let r := newReminder utcZone "g1" "exam fees" 432000000 in
  let w := mkWorld 0 (Some (Json [quizReminder])) true WriteTorn true [] [] [] [] in
  let w' := after (handleCommand utcZone (chrono_finds 432000000 "next Monday")
                                 plainDate plainDate "next Monday exam fees" "g1") w in
  jobs w' = [jobOf r]
  /\ replies w' = [gotItReply plainDate day4_9am]
  /\ disk w' = Some Garbled /\ records w' = [].
Proof.
  cbv zeta.
  destruct (handleCommand_confirms_unsaved
              utcZone (chrono_finds 432000000 "next Monday") plainDate plainDate
              (mkWorld 0 (Some (Json [quizReminder])) true WriteTorn true [] [] [] [])
              "next Monday exam fees" "g1"
              (mkChronoResult 432000000 "next Monday") []
              ltac:(vm_compute; discriminate) eq_refl
              ltac:(vm_compute; discriminate)
              ltac:(vm_compute; discriminate)
              ltac:(discriminate))
    as (Hj & Hr & _ & _ & Htorn).
  split; [exact Hj|]. split; [exact Hr|]. exact (Htorn eq_refl).
Defined.

Lemma scheduleNewReminder_id_witness :
  result (scheduleNewReminder "g1" "fees" day4_9am) (worldAt 0 [])
  = result (scheduleNewReminder "g1" "rent" day4_9am) (worldAt day4_9am [feesReminder]).
Proof.
  apply (proj2 (scheduleNewReminder_id "g1" "g1" "fees" "rent" day4_9am day4_9am
                  (worldAt 0 []) (worldAt day4_9am [feesReminder]))).
  split; reflexivity.
Defined.

Lemma handleCommand_record_shape_witness :
  let r := newReminder utcZone "g1" "exam fees" 432000000 in
  chatId r = "g1"
  /\ id r = "reminder_" ++ chatId r ++ "_" ++ JSString.ofZ (remindAt r)
  /\ reminderMessage r = reminderText (originalSubject r)
  /\ JSString.trim (originalSubject r) = originalSubject r
  /\ JSString.squeezeSpaces (originalSubject r) = originalSubject r.
Proof.
  cbv zeta.
  apply (handleCommand_record_shape
           utcZone (chrono_finds 432000000 "next Monday") plainDate plainDate
           (worldAt 0 []) "  exam   next Monday fees " "g1"
           (newReminder utcZone "g1" "exam fees" 432000000)).
  - vm_compute. left. reflexivity.
  - vm_compute. intros [].
Defined.

Lemma create_then_fire_witness :
  let r := newReminder utcZone "g1" "exam fees" 432000000 in
  let w1 := after (handleCommand utcZone (chrono_finds 432000000 "next Monday")
                                 plainDate plainDate "next Monday exam fees" "g1")
                  (worldAt 0 [quizReminder]) in
  let v := mkWorld day4_9am (disk w1) true WriteOk true (jobs w1) [] [] [] in
  outbox (after (callback (jobOf r)) v) = [("g1", reminderText "exam fees")]
  /\ records (after (callback (jobOf r)) v) = [quizReminder].
Proof.
  cbv zeta.
  destruct (create_then_fire
              utcZone (chrono_finds 432000000 "next Monday") plainDate plainDate
              (worldAt 0 [quizReminder]) [quizReminder]
              "next Monday exam fees" "g1"
              (mkChronoResult 432000000 "next Monday") []
              ltac:(vm_compute; discriminate) eq_refl
              ltac:(vm_compute; discriminate)
              ltac:(vm_compute; discriminate)
              (worldAt_stores _ _) eq_refl)
    as [_ Hfire].
  match goal with
  | |- context [after (callback _) ?v] =>
      destruct (Hfire v eq_refl eq_refl eq_refl eq_refl) as (Ho & Hr & _)
  end.
  split; [exact Ho | exact Hr].
Defined.

Lemma same_day_commands_share_an_id_witness :
  let handle := handleCommand dstZone (chrono_finds 351000000 "next Monday")
                              plainDate plainDate in
  let r1 := newReminder dstZone "g1" "exam fees" 351000000 in
  let r2 := newReminder dstZone "g1" "rent" 351000000 in
  let w2 := after (handle "next Monday exam fees" "g1" ;;
                   handle "rent next Monday" "g1")%js (worldAt 0 [quizReminder]) in
  id r1 = id r2
  /\ disk w2 = Some (Json [quizReminder; r1; r2])
  /\ records (after (callback (jobOf r1))
                    (mkWorld 288000000 (disk w2) true WriteOk true (jobs w2) [] [] []))
     = [quizReminder].
Proof.
  cbv zeta.
  destruct (same_day_commands_share_an_id
              dstZone (chrono_finds 351000000 "next Monday") plainDate plainDate
              (worldAt 0 [quizReminder]) [quizReminder]
              "next Monday exam fees" "rent next Monday" "g1"
              (mkChronoResult 351000000 "next Monday")
              (mkChronoResult 351000000 "next Monday") [] []
              dstZone_regular
              ltac:(vm_compute; discriminate) ltac:(vm_compute; discriminate)
              eq_refl eq_refl
              ltac:(vm_compute; discriminate) ltac:(vm_compute; discriminate)
              ltac:(vm_compute; discriminate) eq_refl
              (worldAt_stores _ _) eq_refl)
    as (Hid & Hd & Hfire).
  split; [exact Hid|]. split; [exact Hd|].
  match goal with
  | |- context [after (callback _) ?v] =>
      exact (Hfire v eq_refl eq_refl eq_refl eq_refl)
  end.
Defined.

Lemma restart_after_create_witness :
  let r := newReminder utcZone "g1" "exam fees" 432000000 in
  let w1 := after (handleCommand utcZone (chrono_finds 432000000 "next Monday")
                                 plainDate plainDate "next Monday exam fees" "g1")
                  (worldAt 0 []) in
  let early := mkWorld day1_9am (disk w1) true WriteOk true [] [] [] [] in
  let late := mkWorld day4_9am (disk w1) true WriteOk true [] [] [] [] in
  (In (jobOf r) (jobs (after rescheduleReminders early))
   /\ In r (records (after rescheduleReminders early)))
  /\ ~ In r (records (after rescheduleReminders late)).
Proof.
  cbv zeta. split.
  - match goal with
    | |- context [after rescheduleReminders ?v] =>
        destruct (restart_after_create
                    utcZone (chrono_finds 432000000 "next Monday") plainDate plainDate
                    (worldAt 0 []) [] "next Monday exam fees" "g1"
                    (mkChronoResult 432000000 "next Monday") []
                    ltac:(vm_compute; discriminate) eq_refl
                    ltac:(vm_compute; discriminate)
                    ltac:(vm_compute; discriminate)
                    (worldAt_stores _ _) eq_refl v eq_refl eq_refl)
          as (_ & Hearly & _)
    end.
    destruct (Hearly ltac:(vm_compute; reflexivity)) as [Hjob Hrec].
    split; [exact Hjob | apply Hrec; discriminate].
  - match goal with
    | |- context [after rescheduleReminders ?v] =>
        destruct (restart_after_create
                    utcZone (chrono_finds 432000000 "next Monday") plainDate plainDate
                    (worldAt 0 []) [] "next Monday exam fees" "g1"
                    (mkChronoResult 432000000 "next Monday") []
                    ltac:(vm_compute; discriminate) eq_refl
                    ltac:(vm_compute; discriminate)
                    ltac:(vm_compute; discriminate)
                    (worldAt_stores _ _) eq_refl v eq_refl eq_refl)
          as (_ & _ & Hlate)
    end.
    destruct (Hlate ltac:(vm_compute; discriminate) eq_refl) as [H _]. exact H.
Defined.

Lemma onMessage_answers_commands_only_witness :
  let on := onMessage utcZone (chrono_finds 432000000 "next Monday") plainDate plainDate in
  after (on "@bot next Monday exam fees" false "me" "c1") (worldAt 0 [])
  = worldAt 0 []
  /\ exists reply,
      replies (after (on "@bot next Monday exam fees" true "class" "g1")
                     (worldAt 0 []))
      = [reply].
Proof.
  cbv zeta. split.
  - apply (proj2 (proj2 (onMessage_answers_commands_only
                           utcZone (chrono_finds 432000000 "next Monday")
                           plainDate plainDate (worldAt 0 [])
                           "@bot next Monday exam fees" "me" "c1" false
                           (or_intror (or_intror (ex_intro _ [] eq_refl)))))).
    right. reflexivity.
  - apply (proj1 (proj2 (onMessage_answers_commands_only
                           utcZone (chrono_finds 432000000 "next Monday")
                           plainDate plainDate (worldAt 0 [])
                           "@bot next Monday exam fees" "class" "g1" true
                           (or_intror (or_intror (ex_intro _ [] eq_refl))))));
      reflexivity.
Defined.
